(** * The GPU execution context and the TensorFlow adapter of horovod-libra

    A shallow embedding of
      - horovod/common/ops/gpu_operations.cc (GPUOpContext: InitGPU,
        InitNewStream, InitGPUQueue, FinalizeGPUQueue), and
      - horovod/tensorflow/mpi_ops.cc (ConvertStatus in both directions,
        GetTFDataType, GetDeviceID, TFOpContext::AllocateZeros),
    with the properties of the engine's specification stated over it.

    Conventions.  A C++ [int] is a [Z]; where the code computes on it the
    wrap-around is written out.  A pointer that may be null is an [option].
    A call whose behaviour C++ leaves undefined (index out of range, null
    dereference, division by zero) makes the embedded function answer
    [None]. *)

From Stdlib Require Import ZArith Lia.
From Stdlib.Strings Require Import Byte.
From stdpp Require Import gmap strings list.

Local Open Scope Z_scope.

(** ** Machine integers *)

Definition INT_MAX : Z := 2 ^ 31 - 1.

(** Value of a mathematical integer once stored in a 32-bit [int]. *)
Definition int_wrap (z : Z) : Z := (z + 2 ^ 31) mod 2 ^ 32 - 2 ^ 31.

(** Conversion of an [int] to [size_t] (64 bits, unsigned). *)
Definition to_size_t (z : Z) : Z := z mod 2 ^ 64.

(** [std::vector<int>::operator[]] with an [int] index: undefined outside
    the vector. *)
Definition vector_at (v : list Z) (i : Z) : option Z :=
  if decide (0 <= i) then v !! Z.to_nat i else None.

(** The device id the engine reserves for host-only tensors. *)
Definition CPU_DEVICE_ID : Z := -1.

(** ** The engine's status (horovod::common::Status)

    The class is declared in a header; the sources use its factories
    [OK], [InProgress], [UnknownError], [PreconditionError], [Aborted],
    [InvalidArgument] and its accessors [type] and [reason]. *)
Module common.

Inductive StatusType : Set :=
| OK | UNKNOWN_ERROR | PRECONDITION_ERROR | ABORTED | INVALID_ARGUMENT
| IN_PROGRESS.

Record Status : Set := mkStatus { type : StatusType; reason : string }.

Definition Status_OK : Status := mkStatus OK EmptyString.
Definition InProgress : Status := mkStatus IN_PROGRESS EmptyString.
Definition UnknownError (message : string) : Status :=
  mkStatus UNKNOWN_ERROR message.
Definition PreconditionError (message : string) : Status :=
  mkStatus PRECONDITION_ERROR message.
Definition Aborted (message : string) : Status := mkStatus ABORTED message.
Definition InvalidArgument (message : string) : Status :=
  mkStatus INVALID_ARGUMENT message.

#[global] Instance StatusType_eq_dec : EqDecision StatusType.
Proof. solve_decision. Defined.

#[global] Instance Status_eq_dec : EqDecision Status.
Proof. solve_decision. Defined.

(** The element types of a tensor; [HOROVOD_INVALID] stands for any
    enumerator value outside the ten the adapter knows. *)
Inductive DataType : Set :=
| HOROVOD_UINT8 | HOROVOD_INT8 | HOROVOD_UINT16 | HOROVOD_INT16
| HOROVOD_INT32 | HOROVOD_INT64 | HOROVOD_FLOAT16 | HOROVOD_FLOAT32
| HOROVOD_FLOAT64 | HOROVOD_BOOL
| HOROVOD_INVALID (raw : Z).

Inductive Framework : Set := MXNET | PYTORCH | TENSORFLOW.

End common.

(** ** The framework's status (tensorflow::Status) *)
Module tf.

Inductive Code : Set :=
| OK | CANCELLED | UNKNOWN | INVALID_ARGUMENT | DEADLINE_EXCEEDED
| NOT_FOUND | ALREADY_EXISTS | PERMISSION_DENIED | UNAUTHENTICATED
| RESOURCE_EXHAUSTED | FAILED_PRECONDITION | ABORTED | OUT_OF_RANGE
| UNIMPLEMENTED | INTERNAL | UNAVAILABLE | DATA_LOSS.

Record Status : Set := mkStatus { code : Code; error_message : string }.

Definition Status_OK : Status := mkStatus OK EmptyString.
Definition ok (s : Status) : bool :=
  match code s with OK => true | _ => false end.

(** The [errors::] constructors, each with the one string it is given. *)
Module errors.
Definition Unknown (msg : string) : Status := mkStatus UNKNOWN msg.
Definition FailedPrecondition (msg : string) : Status :=
  mkStatus FAILED_PRECONDITION msg.
Definition Aborted (msg : string) : Status := mkStatus ABORTED msg.
Definition InvalidArgument (msg : string) : Status :=
  mkStatus INVALID_ARGUMENT msg.
End errors.

Inductive DataType : Set :=
| DT_UINT8 | DT_INT8 | DT_UINT16 | DT_INT16 | DT_INT32 | DT_INT64
| DT_HALF | DT_FLOAT | DT_DOUBLE | DT_BOOL.

End tf.

(** ** mpi_ops.cc: the two ConvertStatus overloads *)

(** [Status ConvertStatus(const common::Status&)] *)
Definition ConvertStatus_to_tf (status : common.Status) : tf.Status :=
  match common.type status with
  | common.OK => tf.Status_OK
  | common.UNKNOWN_ERROR => tf.errors.Unknown (common.reason status)
  | common.PRECONDITION_ERROR =>
        tf.errors.FailedPrecondition (common.reason status)
  | common.ABORTED => tf.errors.Aborted (common.reason status)
  | common.INVALID_ARGUMENT =>
        tf.errors.InvalidArgument (common.reason status)
  | _ => tf.errors.Unknown "Unknown error."
  end.

(** [common::Status ConvertStatus(const Status&)] *)
Definition ConvertStatus_to_common (status : tf.Status) : common.Status :=
  match tf.code status with
  | tf.OK => common.Status_OK
  | tf.UNKNOWN => common.UnknownError (tf.error_message status)
  | tf.FAILED_PRECONDITION =>
        common.PreconditionError (tf.error_message status)
  | tf.ABORTED => common.Aborted (tf.error_message status)
  | tf.INVALID_ARGUMENT => common.InvalidArgument (tf.error_message status)
  | _ => common.UnknownError "Unknown error."
  end.

(** The status types the engine-to-framework conversion names in a case of
    its own. *)
Definition convertible (t : common.StatusType) : bool :=
  match t with
  | common.OK | common.UNKNOWN_ERROR | common.PRECONDITION_ERROR
  | common.ABORTED | common.INVALID_ARGUMENT => true
  | common.IN_PROGRESS => false
  end.

Definition round_trip (status : common.Status) : common.Status :=
  ConvertStatus_to_common (ConvertStatus_to_tf status).

(** [GetTFDataType]; [None] is the [std::logic_error] of the default case. *)
Definition GetTFDataType (dtype : common.DataType) : option tf.DataType :=
  match dtype with
  | common.HOROVOD_UINT8 => Some tf.DT_UINT8
  | common.HOROVOD_INT8 => Some tf.DT_INT8
  | common.HOROVOD_UINT16 => Some tf.DT_UINT16
  | common.HOROVOD_INT16 => Some tf.DT_INT16
  | common.HOROVOD_INT32 => Some tf.DT_INT32
  | common.HOROVOD_INT64 => Some tf.DT_INT64
  | common.HOROVOD_FLOAT16 => Some tf.DT_HALF
  | common.HOROVOD_FLOAT32 => Some tf.DT_FLOAT
  | common.HOROVOD_FLOAT64 => Some tf.DT_DOUBLE
  | common.HOROVOD_BOOL => Some tf.DT_BOOL
  | common.HOROVOD_INVALID _ => None
  end.

(** ** gpu_operations.cc: the data the execution context works on *)

(** A hardware stream handle; [None] is [nullptr]. *)
Definition gpuStream_t : Set := option positive.

(** The address of one cell of [gpu_context_->streams]: the generation
    (first index) and the slot (second index).  The extents of the table
    are fixed in a header, so the embedding keeps a cell for every pair of
    indices; a cell without a binding holds [nullptr]. *)
Definition stream_cell : Set := (Z * Z)%type.

(** [&streams[generation][slot]]: the address of a table element, which is
    never the null pointer. *)
Definition address_of_cell (generation slot : Z) : option stream_cell :=
  Some (generation, slot).

Definition is_nullptr {A : Type} (p : option A) : bool :=
  match p with None => true | Some _ => false end.

(** An event remembers the stream it was recorded on. *)
Record gpuEvent_t : Set := mkEvent { recorded_on : gpuStream_t }.

(** [std::queue<std::pair<std::string, gpuEvent_t>>], front first. *)
Definition event_queue_t : Set := list (string * gpuEvent_t).

(** How a call of a function returning [void] comes back to its caller. *)
Inductive completion : Set := Returns | Throws (what : string).

(** [std::function<void()>], possibly empty. *)
Definition ErrorCheck : Set := option (unit -> completion).

(** The fields of a request that this file reads.  [callback] is the
    identity of the completion function, [None] when the rank sent a Join
    request; [framework] is what [context->framework()] answers. *)
Record TensorTableEntry : Set := mkEntry {
  tensor_name : string;
  device : Z;
  framework : common.Framework;
  callback : option positive
}.

(** Only handed through by [InitGPUQueue]. *)
Record Response : Set := mkResponse { tensor_names : list string }.

(** The key under which [fusion_buffer.GetBuffer] finds a staging buffer. *)
Definition fusion_key : Set := (Z * common.Framework * Z)%type.

(** The closure [FinalizeGPUQueue] hands to the finalizer pool, with the
    values it captures. *)
Record FinalizerTask : Set := mkTask {
  t_entries : list TensorTableEntry;
  t_first_entry : TensorTableEntry;
  t_cpu_buffer : option positive;
  t_fusion_buffer : fusion_key;
  t_free_host_buffer : bool;
  t_evt_queue : event_queue_t;
  t_error_check_callback : ErrorCheck
}.

(** The calls into the device runtime, the timeline and the callers'
    functions, in the order a thread makes them. *)
Module Call.
Inductive t : Set :=
| SetDevice (device : Z)
| StreamCreate (cell : stream_cell) (handle : positive)
| RecordEvent (name : string) (stream : gpuStream_t)
| Printf (is_allreduce : bool) (stream_index : Z)
| GetBuffer (key : fusion_key)
| Execute (task : FinalizerTask)
| Free (ptr : positive)
| TimelineEnd (tensor_name : string)
| Callback (cb : positive) (status : common.Status).
End Call.

(** The part of [GPUContext] the execution context uses: the stream table,
    the supply of handles [StreamCreate] draws from, and the queue of the
    finalizer pool. *)
Record GPUContext : Set := mkGPUContext {
  streams : gmap stream_cell positive;
  next_stream : positive;
  finalizer_thread_pool : list FinalizerTask
}.

(** The fields of [HorovodGlobalState] the execution context uses.
    [current_nccl_stream] is the generation index, [num_nccl_streams] the
    number of generations, [current_gpu_stream] the rotating pointer into
    the assignment table [stream_assignment].  The struct is declared in a
    header; the counters are taken to be [int] and the table a
    [std::vector<int>], as the arithmetic on them reads. *)
Record HorovodGlobalState : Set := mkGlobalState {
  current_nccl_stream : Z;
  num_nccl_streams : Z;
  current_gpu_stream : Z;
  stream_assignment : list Z;
  stream_index : Z;
  timeline_initialized : bool
}.

(** The members of [GPUOpContext]: [stream] and [new_stream] are pointers
    into the stream table, null until a member function sets them;
    [host_buffer] is the host scratch buffer of the batch, if any. *)
Record GPUOpContext : Set := mkOpContext {
  event_queue : event_queue_t;
  stream : option stream_cell;
  new_stream : option stream_cell;
  host_buffer : option positive
}.

(** Everything a member function of [GPUOpContext] can reach, and the calls
    the calling thread has made so far. *)
Record World : Set := mkWorld {
  gpu_context : GPUContext;
  global_state : HorovodGlobalState;
  op : GPUOpContext;
  calls : list Call.t
}.

(** *** Field updates *)

Definition call (c : Call.t) (w : World) : World :=
  mkWorld (gpu_context w) (global_state w) (op w) (calls w ++ [c]).

Definition with_gpu_context (f : GPUContext -> GPUContext) (w : World) : World :=
  mkWorld (f (gpu_context w)) (global_state w) (op w) (calls w).

Definition with_global_state (f : HorovodGlobalState -> HorovodGlobalState)
    (w : World) : World :=
  mkWorld (gpu_context w) (f (global_state w)) (op w) (calls w).

Definition with_op (f : GPUOpContext -> GPUOpContext) (w : World) : World :=
  mkWorld (gpu_context w) (global_state w) (f (op w)) (calls w).

Definition set_event_queue (q : event_queue_t) (o : GPUOpContext) :=
  mkOpContext q (stream o) (new_stream o) (host_buffer o).

Definition set_stream (p : option stream_cell) (o : GPUOpContext) :=
  mkOpContext (event_queue o) p (new_stream o) (host_buffer o).

Definition set_new_stream (p : option stream_cell) (o : GPUOpContext) :=
  mkOpContext (event_queue o) (stream o) p (host_buffer o).

Definition set_stream_index (i : Z) (g : HorovodGlobalState) :=
  mkGlobalState (current_nccl_stream g) (num_nccl_streams g)
    (current_gpu_stream g) (stream_assignment g) i (timeline_initialized g).

Definition set_current_gpu_stream (i : Z) (g : HorovodGlobalState) :=
  mkGlobalState (current_nccl_stream g) (num_nccl_streams g) i
    (stream_assignment g) (stream_index g) (timeline_initialized g).

Definition set_current_nccl_stream (i : Z) (g : HorovodGlobalState) :=
  mkGlobalState i (num_nccl_streams g) (current_gpu_stream g)
    (stream_assignment g) (stream_index g) (timeline_initialized g).

(** The handle a cell holds. *)
Definition stream_at (w : World) (cell : stream_cell) : gpuStream_t :=
  streams (gpu_context w) !! cell.

(** ** gpu_operations.cc: collaborators defined outside the sources *)

(** Modelled from the spec: the marker name [QUEUE] is a macro of a header
    that is not among the sources; the spec calls it the initial "queued"
    marker. *)
Definition QUEUE : string := "QUEUE".

(** The slot [InitGPU] and [InitGPUQueue] write as a literal for a reduction
    with [is_para] set. *)
Definition PARA_STREAM_INDEX : Z := 8.

(** [gpu_context_->SetDevice(device)]. *)
Definition SetDevice (d : Z) (w : World) : World := call (Call.SetDevice d) w.

(** Modelled from the spec: [GPUContext::StreamCreate] is defined outside
    the sources.  It creates a hardware stream and stores the new handle
    through the pointer it is given; handles are never handed out twice. *)
Definition StreamCreate (cell : stream_cell) (w : World) : World :=
  let h := next_stream (gpu_context w) in
  call (Call.StreamCreate cell h)
    (with_gpu_context
       (fun g => mkGPUContext (<[cell := h]> (streams g)) (Pos.succ h)
                   (finalizer_thread_pool g)) w).

(** Modelled from the spec: [GPUContext::RecordEvent] is defined outside the
    sources.  It records a marker on the given stream and appends the pair
    of its name and event to the event queue, which is append-only while a
    batch executes. *)
Definition RecordEvent (name : string) (s : gpuStream_t) (w : World) : World :=
  call (Call.RecordEvent name s)
    (with_op (fun o => set_event_queue (event_queue o ++ [(name, mkEvent s)]) o)
       w).

(** [fusion_buffer.GetBuffer(device, framework, generation)]: the shared
    reference is represented by the key of the buffer it refers to. *)
Definition GetBuffer (d : Z) (fw : common.Framework) (generation : Z)
    : fusion_key := (d, fw, generation).

(** [finalizer_thread_pool.execute(task)]: the task is queued for a worker
    of the pool; the calling thread does not run it. *)
Definition execute (task : FinalizerTask) (w : World) : World :=
  call (Call.Execute task)
    (with_gpu_context
       (fun g => mkGPUContext (streams g) (next_stream g)
                   (finalizer_thread_pool g ++ [task])) w).

(** ** gpu_operations.cc: GPUOpContext *)

(** The slot computation that [InitGPU] and [InitGPUQueue] both spell out:
    the first entry's device, replaced for a reduction by the assignment
    table's element at the rotating pointer, and that in turn by the literal
    8 when [is_para] is set. *)
Definition select_stream_index (g : HorovodGlobalState)
    (first_entry : TensorTableEntry) (is_allreduce is_para : bool)
    : option Z :=
  let stream_index := device first_entry in
  if is_allreduce then
    assigned ← vector_at (stream_assignment g) (current_gpu_stream g);
    Some (if is_para then PARA_STREAM_INDEX else assigned)
  else Some stream_index.

(** [void GPUOpContext::InitGPU(entries, is_allreduce, is_para)] *)
Definition InitGPU (entries : list TensorTableEntry)
    (is_allreduce is_para : bool) (w : World) : option World :=
  first_entry ← head entries;
  let w := SetDevice (device first_entry) w in
  stream_index ←
    select_stream_index (global_state w) first_entry is_allreduce is_para;
  let cell := (current_nccl_stream (global_state w), stream_index) in
  if is_nullptr (stream_at w cell) then Some (StreamCreate cell w)
  else Some w.

(** [void GPUOpContext::InitNewStream(int times)].  The test is made on the
    pointer [new_stream_], not on the handle it points to. *)
Definition InitNewStream (times : Z) (w : World) : option World :=
  let times := Z.rem times 10 + 3 in
  let new_stream_ :=
    address_of_cell (current_nccl_stream (global_state w)) times in
  w ← (if is_nullptr new_stream_
       then cell ← new_stream_; Some (StreamCreate cell w)
       else Some w);
  Some (with_op (set_new_stream new_stream_) w).

(** The rotating pointer after one step: [int] plus one, converted to
    [size_t] for the remainder by the table's size, stored back in an
    [int]. *)
Definition next_gpu_stream (current size : Z) : Z :=
  int_wrap (to_size_t (int_wrap (current + 1)) mod size).

(** [void GPUOpContext::InitGPUQueue(entries, response, is_allreduce,
    is_para)] *)
Definition InitGPUQueue (entries : list TensorTableEntry)
    (response : Response) (is_allreduce is_para : bool) (w : World)
    : option World :=
  let w := with_op (set_event_queue []) w in
  first_entry ← head entries;
  stream_index ←
    select_stream_index (global_state w) first_entry is_allreduce is_para;
  let w :=
    if is_allreduce then with_global_state (set_stream_index stream_index) w
    else w in
  let cell := (current_nccl_stream (global_state w), stream_index) in
  let w := with_op (set_stream (Some cell)) w in
  let w := call (Call.Printf is_allreduce stream_index) w in
  let w :=
    if timeline_initialized (global_state w)
    then RecordEvent QUEUE (stream_at w cell) w else w in
  if is_allreduce then
    let size := Z.of_nat (length (stream_assignment (global_state w))) in
    if decide (size = 0) then None
    else Some (with_global_state
                 (set_current_gpu_stream
                    (next_gpu_stream (current_gpu_stream (global_state w))
                       size)) w)
  else Some w.

(** The generation index after one step: [int] arithmetic, the remainder
    truncating as C++ has it. *)
Definition next_nccl_stream (current num : Z) : Z :=
  int_wrap (Z.rem (int_wrap (current + 1)) num).

(** [Status GPUOpContext::FinalizeGPUQueue(entries, free_host_buffer,
    error_check_callback)] *)
Definition FinalizeGPUQueue (entries : list TensorTableEntry)
    (free_host_buffer : bool) (error_check_callback : ErrorCheck) (w : World)
    : option (common.Status * World) :=
  cell ← stream (op w);
  let w := RecordEvent EmptyString (stream_at w cell) w in
  first_entry ← head entries;
  let cpu_buffer := host_buffer (op w) in
  let evt_queue := event_queue (op w) in
  let fusion_buffer :=
    GetBuffer (device first_entry) (framework first_entry)
      (current_nccl_stream (global_state w)) in
  let w := call (Call.GetBuffer fusion_buffer) w in
  let w :=
    execute (mkTask entries first_entry cpu_buffer fusion_buffer
               free_host_buffer evt_queue error_check_callback) w in
  let num := num_nccl_streams (global_state w) in
  if decide (num = 0) then None
  else Some (common.InProgress,
             with_global_state
               (set_current_nccl_stream
                  (next_nccl_stream (current_nccl_stream (global_state w))
                     num)) w).

(** *** The finalization task *)

Section Finalizer.

(** [gpu_context->WaitForEvents(evt_queue, entries, timeline,
    error_check_callback)] is defined outside the sources: the task is
    stated for every behaviour of it. *)
Variable WaitForEvents :
  event_queue_t -> list TensorTableEntry -> ErrorCheck -> completion.

(** One turn of the loop over the entries. *)
Definition notify (e : TensorTableEntry) : list Call.t :=
  Call.TimelineEnd (tensor_name e) ::
  match callback e with
  | Some cb => [Call.Callback cb common.Status_OK]
  | None => []
  end.

(** [if (free_host_buffer && cpu_buffer != nullptr) free(cpu_buffer);] *)
Definition free_cpu_buffer (free_host_buffer : bool)
    (cpu_buffer : option positive) : list Call.t :=
  match cpu_buffer with
  | Some p => if free_host_buffer then [Call.Free p] else []
  | None => []
  end.

(** The body of the closure, run by a worker of the pool: the calls it
    makes and how it ends.  An exception of the wait leaves the body at
    once. *)
Definition finalizer_task (t : FinalizerTask) : list Call.t * completion :=
  let before := [Call.SetDevice (device (t_first_entry t))] in
  match
    WaitForEvents (t_evt_queue t) (t_entries t) (t_error_check_callback t)
  with
  | Throws what => (before, Throws what)
  | Returns =>
      (before
         ++ free_cpu_buffer (t_free_host_buffer t) (t_cpu_buffer t)
         ++ flat_map notify (t_entries t),
       Returns)
  end.

End Finalizer.

(** Modelled from the spec: [GPUContext::WaitForEvents] is defined outside
    the sources.  It waits for every recorded event of the queue in FIFO
    order; when the completion probe of an event reports a hardware error
    ([faulty]), the error is surfaced through the error-check callback
    supplied at submission, whose exception ends the wait. *)
Fixpoint WaitForEvents_model (faulty : gpuEvent_t -> bool)
    (q : event_queue_t) (entries : list TensorTableEntry)
    (error_check_callback : ErrorCheck) : completion :=
  match q with
  | [] => Returns
  | (_, ev) :: q' =>
      match (if faulty ev then error_check_callback else None) with
      | Some check =>
          match check tt with
          | Throws what => Throws what
          | Returns => WaitForEvents_model faulty q' entries error_check_callback
          end
      | None => WaitForEvents_model faulty q' entries error_check_callback
      end
  end.

(** The callbacks a run of the task invoked, with the status each got. *)
Definition delivered (trace : list Call.t) : list (positive * common.Status) :=
  flat_map (fun c => match c with
                     | Call.Callback cb st => [(cb, st)]
                     | _ => []
                     end) trace.

(** The host buffers a run of the task freed. *)
Definition freed (trace : list Call.t) : list positive :=
  flat_map (fun c => match c with Call.Free p => [p] | _ => [] end) trace.

(** A sequence of batches finalized one after the other on one context. *)
Fixpoint finalize_batches
    (batches : list (list TensorTableEntry * bool * ErrorCheck)) (w : World)
    : option World :=
  match batches with
  | [] => Some w
  | (entries, free_host_buffer, check) :: rest =>
      match FinalizeGPUQueue entries free_host_buffer check w with
      | Some (_, w') => finalize_batches rest w'
      | None => None
      end
  end.

(** ** mpi_ops.cc: TFOpContext::AllocateZeros *)

(** What the adapter reads of the kernel context: the GPU id of
    [device()->tensorflow_gpu_device_info()] ([None] when [device()] or the
    info is null) and the stream of [op_device_context()] ([None] when the
    device context is null). *)
Record OpKernelContext : Set := mkKernelContext {
  gpu_id : option Z;
  op_device_context : option positive
}.

(** [int GetDeviceID(OpKernelContext* context)] *)
Definition GetDeviceID (context : OpKernelContext) : Z :=
  let device := CPU_DEVICE_ID in
  match gpu_id context with
  | Some id => id
  | None => device
  end.

(** The buffer of the tensor under construction as the caller can read it
    ([tensor_data]) and the device work enqueued on streams and not yet
    executed: each item sets the first [size] bytes of the buffer to zero. *)
Record Device : Set := mkDevice {
  tensor_data : list byte;
  enqueued : list (gpuStream_t * nat)
}.

Definition zero_fill (size : nat) (bytes : list byte) : list byte :=
  replicate (Nat.min size (length bytes)) x00 ++ drop size bytes.

(** [memset(ptr, 0, size)]: done when the call returns. *)
Definition memset_zero (size : nat) (d : Device) : Device :=
  mkDevice (zero_fill size (tensor_data d)) (enqueued d).

(** [gpuMemsetAsync(ptr, 0, size, stream)]: only enqueued on the stream. *)
Definition gpuMemsetAsync (size : nat) (s : gpuStream_t) (d : Device) : Device :=
  mkDevice (tensor_data d) (enqueued d ++ [(s, size)]).

(** [stream->BlockHostUntilDone()]: returns once the work enqueued on that
    stream has been executed. *)
Definition BlockHostUntilDone (s : positive) (d : Device) : Device :=
  mkDevice
    (foldl (fun bytes item => zero_fill item.2 bytes) (tensor_data d)
       (filter (fun item => item.1 = Some s) (enqueued d)))
    (filter (fun item => item.1 ≠ Some s) (enqueued d)).

(** A result or the C++ exception that replaced it. *)
Inductive outcome (A : Type) : Type :=
| Normal (a : A)
| Raised (what : string).
Arguments Normal {A} a.
Arguments Raised {A} what.

(** What [AllocateZeros] leaves behind: its status, the tensor stored
    through the out-parameter (its element type; [None] when the
    out-parameter was not written) and the state of the buffer. *)
Record Allocated : Set := mkAllocated {
  status_of : common.Status;
  tensor_of : option tf.DataType;
  device_of : Device
}.

(** [common::Status TFOpContext::AllocateZeros(num_elements, dtype,
    tensor)].  [HAVE_GPU] is the build flag of the same name;
    [allocate_temp] is the framework's allocator, which answers a status
    and leaves [zero_tensor] with a buffer of bytes it does not
    initialise. *)
Definition AllocateZeros (HAVE_GPU : bool)
    (allocate_temp : tf.DataType -> Z -> bool -> tf.Status * list byte)
    (context_ : OpKernelContext) (num_elements : Z) (dtype : common.DataType)
    : outcome Allocated :=
  match GetTFDataType dtype with
  | None => Raised "Invalid data type."
  | Some tf_data_type =>
      let device_ := GetDeviceID context_ in
      let on_host := if decide (device_ ≠ CPU_DEVICE_ID) then false else true in
      let '(status, bytes) := allocate_temp tf_data_type num_elements on_host in
      let d := mkDevice bytes [] in
      let d :=
        if decide (device_ ≠ CPU_DEVICE_ID) then
          if HAVE_GPU then
            let device_context := op_device_context context_ in
            let stream : gpuStream_t :=
              match device_context with Some s => Some s | None => None end in
            let size := length (tensor_data d) in
            gpuMemsetAsync size stream d
          else d
        else memset_zero (length (tensor_data d)) d in
      let tensor := if tf.ok status then Some tf_data_type else None in
      let d :=
        if HAVE_GPU then
          match op_device_context context_ with
          | Some s => BlockHostUntilDone s d
          | None => d
          end
        else d in
      Normal (mkAllocated (ConvertStatus_to_common status) tensor d)
  end.


(** ** Concrete inputs used by the examples below *)

Definition entry_on (name : string) (d : Z) (cb : option positive)
    : TensorTableEntry := mkEntry name d common.TENSORFLOW cb.

(** A fused batch of three tensors on GPU 0. *)
Definition fused_batch : list TensorTableEntry :=
  [entry_on "grad_a" 0 (Some 1%positive);
   entry_on "grad_b" 0 (Some 2%positive);
   entry_on "grad_c" 0 (Some 3%positive)].

(** A batch whose second entry comes from a Join request. *)
Definition join_batch : list TensorTableEntry :=
  [entry_on "grad_a" 0 (Some 1%positive);
   entry_on "join" 0 None;
   entry_on "grad_c" 0 (Some 3%positive)].

(** One tensor on GPU 3. *)
Definition single_batch : list TensorTableEntry :=
  [entry_on "grad" 3 (Some 1%positive)].

Definition no_response : Response := mkResponse [].

(** A context on which nothing has run yet: no stream created, generation
    0 of two, the rotating pointer at the start of the table [5; 6; 7]. *)
Definition fresh_world : World :=
  mkWorld (mkGPUContext ∅ 1%positive [])
    (mkGlobalState 0 2 0 [5; 6; 7] 0 false)
    (mkOpContext [] None None None)
    [].

(** [fresh_world] after [InitGPUQueue] chose slot 3 of generation 0, with a
    host buffer allocated for the batch. *)
Definition queued_world : World :=
  mkWorld (mkGPUContext ∅ 1%positive [])
    (mkGlobalState 0 2 0 [5; 6; 7] 0 false)
    (mkOpContext [] (Some (0, 3)) None (Some 9%positive))
    [].

(** An error-check callback that finds a hardware fault. *)
Definition hardware_fault : ErrorCheck :=
  Some (fun _ => Throws "hardware fault").

(** An error-check callback that finds nothing. *)
Definition no_fault : ErrorCheck := Some (fun _ => Returns).

(** The closure of a three-entry batch with one final marker. *)
Definition faulty_task : FinalizerTask :=
  mkTask fused_batch (entry_on "grad_a" 0 (Some 1%positive))
    (Some 9%positive) (0, common.TENSORFLOW, 0) true
    [(EmptyString, mkEvent None)] hardware_fault.

Definition join_task : FinalizerTask :=
  mkTask join_batch (entry_on "grad_a" 0 (Some 1%positive))
    (Some 9%positive) (0, common.TENSORFLOW, 0) true
    [(EmptyString, mkEvent None)] no_fault.

(** A kernel context on GPU 0 without a device context, and one with the
    stream 4 as its device context. *)
Definition gpu_without_device_context : OpKernelContext :=
  mkKernelContext (Some 0) None.

Definition gpu_with_device_context : OpKernelContext :=
  mkKernelContext (Some 0) (Some 4%positive).

(** An allocator that succeeds and hands out one uninitialised byte per
    element. *)
Definition dirty_allocate_temp (_ : tf.DataType) (num_elements : Z)
    (_ : bool) : tf.Status * list byte :=
  (tf.Status_OK, replicate (Z.to_nat num_elements) x07).

(** The statuses an entry's callback was given in a run. *)
Definition statuses_for (cb : positive) (trace : list Call.t)
    : list common.Status :=
  omap (fun d => if decide (d.1 = cb) then Some d.2 else None)
    (delivered trace).

(** The deliveries the loop over the entries makes: one per entry with a
    callback, in batch order, each with the OK status. *)
Definition ok_deliveries (entries : list TensorTableEntry)
    : list (positive * common.Status) :=
  omap (fun e => (fun cb => (cb, common.Status_OK)) <$> callback e) entries.

(** The slot in the words of the specification: the dedicated reduction
    slot if [useDedicatedSlot], else the rotating slot of the assignment
    table if [isReduction], else the entries' device id. *)
Definition slot_as_specified (g : HorovodGlobalState)
    (first_entry : TensorTableEntry) (isReduction useDedicatedSlot : bool)
    : option Z :=
  if useDedicatedSlot then Some PARA_STREAM_INDEX
  else if isReduction
       then vector_at (stream_assignment g) (current_gpu_stream g)
       else Some (device first_entry).

(** The closure [FinalizeGPUQueue] builds on world [w] for a batch whose
    stream pointer is [cell]. *)
Definition closure_of (entries : list TensorTableEntry)
    (first_entry : TensorTableEntry) (free_host_buffer : bool)
    (error_check_callback : ErrorCheck) (cell : stream_cell) (w : World)
    : FinalizerTask :=
  mkTask entries first_entry (host_buffer (op w))
    (GetBuffer (device first_entry) (framework first_entry)
       (current_nccl_stream (global_state w)))
    free_host_buffer
    (event_queue (op w) ++ [(EmptyString, mkEvent (stream_at w cell))])
    error_check_callback.

(** The run of [faulty_task] when the probe of every event reports a
    hardware error, and the run of [join_task] under the same probes with
    an error-check callback that comes back without an exception. *)
Definition faulty_run : list Call.t * completion :=
  finalizer_task (WaitForEvents_model (fun _ => true)) faulty_task.

Definition join_run : list Call.t * completion :=
  finalizer_task (WaitForEvents_model (fun _ => true)) join_task.

(** What the host buffer guard lets through. *)
Definition buffer_to_free (free_host_buffer : bool)
    (cpu_buffer : option positive) : list positive :=
  if free_host_buffer then option_list cpu_buffer else [].

(** ** mpi_ops.cc: element types and shapes of tensors *)

(** The element type a framework tensor carries: one of the ten the adapter
    converts, or any other enumerator of the framework ([raw] is its
    value). *)
Inductive TFDataType : Set :=
| Supported (t : tf.DataType)
| Unsupported (raw : Z).

(** [TFTensor::dtype()]; [None] is the [std::logic_error] of the default
    case. *)
Definition TFTensor_dtype (tensor_dtype : TFDataType)
    : option common.DataType :=
  match tensor_dtype with
  | Supported tf.DT_UINT8 => Some common.HOROVOD_UINT8
  | Supported tf.DT_INT8 => Some common.HOROVOD_INT8
  | Supported tf.DT_UINT16 => Some common.HOROVOD_UINT16
  | Supported tf.DT_INT16 => Some common.HOROVOD_INT16
  | Supported tf.DT_INT32 => Some common.HOROVOD_INT32
  | Supported tf.DT_INT64 => Some common.HOROVOD_INT64
  | Supported tf.DT_HALF => Some common.HOROVOD_FLOAT16
  | Supported tf.DT_FLOAT => Some common.HOROVOD_FLOAT32
  | Supported tf.DT_DOUBLE => Some common.HOROVOD_FLOAT64
  | Supported tf.DT_BOOL => Some common.HOROVOD_BOOL
  | Unsupported _ => None
  end.

(** A shape, of the engine or of the framework: the dimension sizes in
    order.  [AddDim] appends a dimension; [dim_size] reads one by index and
    is undefined outside the shape. *)
Definition TensorShape : Set := list Z.

Definition AddDim (dim : Z) (shape : TensorShape) : TensorShape :=
  shape ++ [dim].

Definition dims (shape : TensorShape) : Z := Z.of_nat (length shape).

Definition dim_size (shape : TensorShape) (idx : Z) : option Z :=
  vector_at shape idx.

(** The loop of [AllocateOutput],
    [for (int idx = 0; idx < shape.dims(); ++idx)
       tf_shape.AddDim(shape.dim_size(idx));]
    from index [idx] on; [fuel] bounds the number of turns. *)
Fixpoint add_dims_from (fuel : nat) (idx : Z) (shape tf_shape : TensorShape)
    : option TensorShape :=
  if decide (idx < dims shape) then
    match fuel with
    | O => None
    | S fuel' =>
        dim ← dim_size shape idx;
        add_dims_from fuel' (idx + 1) shape (AddDim dim tf_shape)
    end
  else Some tf_shape.

(** [TFTensor::shape()]: one [AddDim] per dimension of the framework's
    shape, in order. *)
Definition TFTensor_shape (tensor_shape : TensorShape) : TensorShape :=
  foldl (fun shape dim => AddDim dim shape) [] tensor_shape.

(** ** mpi_ops.cc: the other two allocators of TFOpContext *)

(** What [AllocateOutput] leaves behind: its status, the shape of the
    tensor stored through the out-parameter ([None] when it was not
    written) and the stream the call waited for, if any. *)
Record OutputAllocated : Set := mkOutputAllocated {
  output_status_of : common.Status;
  output_tensor_of : option TensorShape;
  output_waited_for : option positive
}.

(** [common::Status TFOpContext::AllocateOutput(shape, tensor)].
    [allocate_output] is the framework's allocator for the output of the
    given index; on success it hands back a tensor of the shape it was
    asked for.  [None] stands for an undefined [dim_size]. *)
Definition AllocateOutput (HAVE_GPU : bool)
    (allocate_output : Z -> TensorShape -> tf.Status)
    (context_ : OpKernelContext) (shape : TensorShape)
    : option OutputAllocated :=
  tf_shape ← add_dims_from (length shape) 0 shape [];
  let status := allocate_output 0 tf_shape in
  let tensor := if tf.ok status then Some tf_shape else None in
  let waited := if HAVE_GPU then op_device_context context_ else None in
  Some (mkOutputAllocated (ConvertStatus_to_common status) tensor waited).

(** The constructor [TFPersistentBuffer(context, size)]: [inl status] is
    the status it throws, [inr] the buffer it holds and the stream it
    waited for. *)
Definition TFPersistentBuffer_new (HAVE_GPU : bool)
    (allocate_temp : tf.DataType -> Z -> bool -> tf.Status * list byte)
    (context : OpKernelContext) (size : Z)
    : tf.Status + (list byte * option positive) :=
  let '(status, bytes) := allocate_temp tf.DT_INT8 size false in
  if negb (tf.ok status) then inl status
  else inr (bytes, if HAVE_GPU then op_device_context context else None).

(** [common::Status TFOpContext::AllocatePersistent(size, tensor)]: the
    status and the buffer stored through the out-parameter, if any. *)
Definition AllocatePersistent (HAVE_GPU : bool)
    (allocate_temp : tf.DataType -> Z -> bool -> tf.Status * list byte)
    (context_ : OpKernelContext) (size : Z)
    : common.Status * option (list byte) :=
  match TFPersistentBuffer_new HAVE_GPU allocate_temp context_ size with
  | inr (bytes, _) => (common.Status_OK, Some bytes)
  | inl status => (ConvertStatus_to_common status, None)
  end.

(** [common::ReadyEvent* RecordReadyEvent(OpKernelContext* context)]: the
    stream the event is recorded on, [None] for the null pointer. *)
Definition RecordReadyEvent (HAVE_GPU : bool) (context : OpKernelContext)
    : option positive :=
  if HAVE_GPU then
    match op_device_context context with
    | Some device_context => Some device_context
    | None => None
    end
  else None.

(** ** mpi_ops.cc: the name a kernel enqueues its tensor under *)

(** [std::string::find_last_of(char)]: the greatest position holding the
    character, [None] for [npos]. *)
Fixpoint find_last_of (c : Ascii.ascii) (s : string) : option nat :=
  match s with
  | EmptyString => None
  | String a rest =>
      match find_last_of c rest with
      | Some pos => Some (S pos)
      | None => if decide (a = c) then Some O else None
      end
  end.

Fixpoint string_drop (n : nat) (s : string) : string :=
  match n, s with
  | O, _ => s
  | S n', String _ rest => string_drop n' rest
  | S _, EmptyString => EmptyString
  end.

(** [std::string::substr(pos)]: the characters from [pos] on; [None] is the
    [std::out_of_range] of a position past the end. *)
Definition substr (pos : nat) (s : string) : option string :=
  if decide (pos ≤ String.length s)%nat then Some (string_drop pos s)
  else None.

(** The character ['/'], code 47. *)
Definition slash : Ascii.ascii := Ascii.ascii_of_nat 47.

(** The lines every tensor kernel starts with,
    [auto node_name = name();
     if (ignore_name_scope_) {
       auto pos = node_name.find_last_of('/');
       if (pos != std::string::npos) node_name = node_name.substr(pos + 1);
     }] *)
Definition scoped_node_name (ignore_name_scope_ : bool) (name : string)
    : option string :=
  let node_name := name in
  if ignore_name_scope_ then
    match find_last_of slash node_name with
    | Some pos => substr (pos + 1) node_name
    | None => Some node_name
    end
  else Some node_name.

(** Whether a character occurs in a string. *)
Fixpoint has_char (c : Ascii.ascii) (s : string) : bool :=
  match s with
  | EmptyString => false
  | String a rest => if decide (a = c) then true else has_char c rest
  end.

(** ** mpi_ops.cc: the asynchronous kernels *)

(** The collective a kernel asks the engine for. *)
Inductive Collective : Set :=
| Allreduce | Allgather | Broadcast (root_rank : Z) | Alltoall | Join.

(** The arguments of an [EnqueueTensor...] or [EnqueueJoin] call that the
    kernel computes: the name, the device, the ready event (the stream it
    was recorded on, [None] for the null pointer) and whether an output
    tensor is handed over. *)
Record Enqueued : Set := mkEnqueued {
  enq_collective : Collective;
  enq_name : string;
  enq_device : Z;
  enq_ready_event : option positive;
  enq_has_output : bool
}.

(** What a kernel does to its context and to the engine, in order. *)
Module Kernel.
Inductive action : Set :=
| CtxFailure (status : tf.Status)
| SetStatus (status : tf.Status)
| Done
| AllocateOutput (index : Z) (shape : TensorShape)
| SetOutput (index : Z)
| Enqueue (request : Enqueued).
End Kernel.

(** One kernel invocation: the node's name and attribute, the shape of
    input 0, the kernel context, and the answers of the collaborators the
    kernel calls ([common::CheckInitialized()], [context->allocate_output]
    and the engine's enqueue function). *)
Record KernelCall : Set := mkKernelCall {
  k_name : string;
  k_ignore_name_scope : bool;
  k_input_shape : TensorShape;
  k_context : OpKernelContext;
  k_initialized : common.Status;
  k_allocate_output : Z -> TensorShape -> tf.Status;
  k_enqueue_result : common.Status
}.

(** The framework's macro [OP_REQUIRES_OK_ASYNC(context, status, done)]: on
    a status that is not OK it records the failure in the context, runs
    [done] and returns from the kernel; otherwise the kernel goes on with
    [rest]. *)
Definition OP_REQUIRES_OK_ASYNC (status : tf.Status)
    (rest : option (list Kernel.action)) : option (list Kernel.action) :=
  if negb (tf.ok status) then Some [Kernel.CtxFailure status; Kernel.Done]
  else rest.

(** The actions made before the rest of the kernel. *)
Definition and_then (made : list Kernel.action)
    (rest : option (list Kernel.action)) : option (list Kernel.action) :=
  match rest with
  | Some after => Some (made ++ after)
  | None => None
  end.

(** The callback every kernel hands to the engine,
    [[context, done](const common::Status& status) {
       context->SetStatus(ConvertStatus(status)); done(); }] *)
Definition kernel_callback (status : common.Status) : list Kernel.action :=
  [Kernel.SetStatus (ConvertStatus_to_tf status); Kernel.Done].

(** [HorovodAllreduceOp::ComputeAsync] *)
Definition HorovodAllreduceOp_ComputeAsync (HAVE_GPU : bool) (k : KernelCall)
    : option (list Kernel.action) :=
  OP_REQUIRES_OK_ASYNC (ConvertStatus_to_tf (k_initialized k))
    (node_name ← scoped_node_name (k_ignore_name_scope k) (k_name k);
     let device := GetDeviceID (k_context k) in
     let shape := k_input_shape k in
     and_then [Kernel.AllocateOutput 0 shape]
       (OP_REQUIRES_OK_ASYNC (k_allocate_output k 0 shape)
          (let ready_event := RecordReadyEvent HAVE_GPU (k_context k) in
           and_then
             [Kernel.Enqueue
                (mkEnqueued Allreduce node_name device ready_event true)]
             (OP_REQUIRES_OK_ASYNC (ConvertStatus_to_tf (k_enqueue_result k))
                (Some []))))).

(** [HorovodAllgatherOp::ComputeAsync] *)
Definition HorovodAllgatherOp_ComputeAsync (HAVE_GPU : bool) (k : KernelCall)
    : option (list Kernel.action) :=
  OP_REQUIRES_OK_ASYNC (ConvertStatus_to_tf (k_initialized k))
    (node_name ← scoped_node_name (k_ignore_name_scope k) (k_name k);
     let device := GetDeviceID (k_context k) in
     let ready_event := RecordReadyEvent HAVE_GPU (k_context k) in
     and_then
       [Kernel.Enqueue
          (mkEnqueued Allgather node_name device ready_event false)]
       (OP_REQUIRES_OK_ASYNC (ConvertStatus_to_tf (k_enqueue_result k))
          (Some []))).

(** [HorovodBroadcastOp::ComputeAsync]; [horovod_rank] is what
    [common::horovod_rank()] answers. *)
Definition HorovodBroadcastOp_ComputeAsync (HAVE_GPU : bool)
    (horovod_rank root_rank_ : Z) (k : KernelCall)
    : option (list Kernel.action) :=
  OP_REQUIRES_OK_ASYNC (ConvertStatus_to_tf (k_initialized k))
    (node_name ← scoped_node_name (k_ignore_name_scope k) (k_name k);
     let device := GetDeviceID (k_context k) in
     let shape := k_input_shape k in
     let enqueue (has_output : bool) :=
       let ready_event := RecordReadyEvent HAVE_GPU (k_context k) in
       and_then
         [Kernel.Enqueue
            (mkEnqueued (Broadcast root_rank_) node_name device ready_event
               has_output)]
         (OP_REQUIRES_OK_ASYNC (ConvertStatus_to_tf (k_enqueue_result k))
            (Some [])) in
     if decide (horovod_rank = root_rank_) then
       and_then [Kernel.SetOutput 0] (enqueue false)
     else
       and_then [Kernel.AllocateOutput 0 shape]
         (OP_REQUIRES_OK_ASYNC (k_allocate_output k 0 shape) (enqueue true))).

(** [HorovodJoinOp::ComputeAsync]; [JOIN_TENSOR_NAME] is a macro of a
    header that is not among the sources. *)
Definition HorovodJoinOp_ComputeAsync (HAVE_GPU : bool)
    (JOIN_TENSOR_NAME : string) (k : KernelCall)
    : option (list Kernel.action) :=
  OP_REQUIRES_OK_ASYNC (ConvertStatus_to_tf (k_initialized k))
    (let device := GetDeviceID (k_context k) in
     let ready_event := RecordReadyEvent HAVE_GPU (k_context k) in
     and_then
       [Kernel.Enqueue
          (mkEnqueued Join JOIN_TENSOR_NAME device ready_event false)]
       (OP_REQUIRES_OK_ASYNC (ConvertStatus_to_tf (k_enqueue_result k))
          (Some []))).

(** [HorovodAlltoallOp::ComputeAsync] *)
Definition HorovodAlltoallOp_ComputeAsync (HAVE_GPU : bool) (k : KernelCall)
    : option (list Kernel.action) :=
  OP_REQUIRES_OK_ASYNC (ConvertStatus_to_tf (k_initialized k))
    (node_name ← scoped_node_name (k_ignore_name_scope k) (k_name k);
     let device := GetDeviceID (k_context k) in
     let ready_event := RecordReadyEvent HAVE_GPU (k_context k) in
     and_then
       [Kernel.Enqueue
          (mkEnqueued Alltoall node_name device ready_event false)]
       (OP_REQUIRES_OK_ASYNC (ConvertStatus_to_tf (k_enqueue_result k))
          (Some []))).

(** How often a kernel ran [done], what it asked the engine for, and what
    it allocated. *)
Definition done_calls (trace : list Kernel.action) : nat :=
  length
    (omap (fun a => match a with Kernel.Done => Some tt | _ => None end)
       trace).

Definition enqueued_requests (trace : list Kernel.action) : list Enqueued :=
  omap (fun a => match a with Kernel.Enqueue r => Some r | _ => None end)
    trace.

Definition allocated_outputs (trace : list Kernel.action)
    : list (Z * TensorShape) :=
  omap (fun a => match a with
                 | Kernel.AllocateOutput i s => Some (i, s)
                 | _ => None
                 end) trace.

(** ** gpu_operations.cc: the collective variants *)

(** [GPUAllreduce::Enabled]; [param_manager] and [response] are not
    read. *)
Definition GPUAllreduce_Enabled (entries : list TensorTableEntry)
    : option bool :=
  first_entry ← head entries;
  Some (bool_decide (device first_entry ≠ CPU_DEVICE_ID)).

(** [GPUAllgather::Enabled] *)
Definition GPUAllgather_Enabled (entries : list TensorTableEntry)
    : option bool :=
  first_entry ← head entries;
  Some (bool_decide (device first_entry ≠ CPU_DEVICE_ID)).

(** [GPUBroadcast::Enabled] *)
Definition GPUBroadcast_Enabled (entries : list TensorTableEntry)
    : option bool :=
  first_entry ← head entries;
  Some (bool_decide (device first_entry ≠ CPU_DEVICE_ID)).

(** [GPUAlltoall::Enabled] *)
Definition GPUAlltoall_Enabled (entries : list TensorTableEntry)
    : option bool :=
  first_entry ← head entries;
  Some (bool_decide (device first_entry ≠ CPU_DEVICE_ID)).

(** What the copies read of a tensor: [data()] and [size()]. *)
Record TensorData : Set := mkTensorData { data : Z; size : Z }.

(** One call of [gpu_context_->MemcpyAsyncD2D(dst, src, count, stream)]. *)
Record MemcpyAsyncD2D : Set := mkMemcpy {
  dst : Z;
  src : Z;
  count : Z;
  copy_stream : gpuStream_t
}.

(** The cell of
    [gpu_context_->streams[global_state_->current_nccl_stream]
                          [first_entry.device]],
    the stream every copy and [ScaleBuffer] of the variants is issued on. *)
Definition first_entry_cell (w : World) (entries : list TensorTableEntry)
    : option stream_cell :=
  first_entry ← head entries;
  Some (current_nccl_stream (global_state w), device first_entry).

(** [GPUAllreduce::MemcpyEntryInFusionBuffer(entries, e,
    buffer_data_at_offset)], with the input tensor of [e]. *)
Definition GPUAllreduce_MemcpyEntryInFusionBuffer (w : World)
    (entries : list TensorTableEntry) (e_tensor : TensorData)
    (buffer_data_at_offset : Z) : option MemcpyAsyncD2D :=
  cell ← first_entry_cell w entries;
  Some (mkMemcpy buffer_data_at_offset (data e_tensor)
          (to_size_t (size e_tensor)) (stream_at w cell)).

(** [GPUAllreduce::MemcpyEntryOutFusionBuffer(entries,
    buffer_data_at_offset, e)], with the input and output tensors of [e]. *)
Definition GPUAllreduce_MemcpyEntryOutFusionBuffer (w : World)
    (entries : list TensorTableEntry) (buffer_data_at_offset : Z)
    (e_tensor e_output : TensorData) : option MemcpyAsyncD2D :=
  cell ← first_entry_cell w entries;
  Some (mkMemcpy (data e_output) buffer_data_at_offset
          (to_size_t (size e_tensor)) (stream_at w cell)).

(** [GPUAllgather::MemcpyEntryInFusionBuffer] *)
Definition GPUAllgather_MemcpyEntryInFusionBuffer (w : World)
    (entries : list TensorTableEntry) (e_tensor : TensorData)
    (buffer_data_at_offset : Z) : option MemcpyAsyncD2D :=
  cell ← first_entry_cell w entries;
  Some (mkMemcpy buffer_data_at_offset (data e_tensor)
          (to_size_t (size e_tensor)) (stream_at w cell)).

(** [GPUAllgather::MemcpyEntryOutFusionBuffer(entries,
    buffer_data_at_offset, e, entry_offset, entry_size)] *)
Definition GPUAllgather_MemcpyEntryOutFusionBuffer (w : World)
    (entries : list TensorTableEntry) (buffer_data_at_offset : Z)
    (e_output : TensorData) (entry_offset entry_size : Z)
    : option MemcpyAsyncD2D :=
  cell ← first_entry_cell w entries;
  Some (mkMemcpy (data e_output + entry_offset) buffer_data_at_offset
          entry_size (stream_at w cell)).

(** ** Batches one after the other *)

(** One batch as the operations drive it: [InitGPU], [InitGPUQueue], then
    [FinalizeGPUQueue], all with the same entries. *)
Definition run_batch (entries : list TensorTableEntry) (response : Response)
    (is_allreduce is_para free_host_buffer : bool)
    (error_check_callback : ErrorCheck) (w : World)
    : option (common.Status * World) :=
  w ← InitGPU entries is_allreduce is_para w;
  w ← InitGPUQueue entries response is_allreduce is_para w;
  FinalizeGPUQueue entries free_host_buffer error_check_callback w.

(** [InitGPUQueue] for a sequence of batches, with the cell [stream] points
    at after each of them. *)
Fixpoint queue_batches
    (batches : list (list TensorTableEntry * Response * bool * bool))
    (w : World) : option (list (option stream_cell) * World) :=
  match batches with
  | [] => Some ([], w)
  | (entries, response, is_allreduce, is_para) :: rest =>
      w1 ← InitGPUQueue entries response is_allreduce is_para w;
      '(cells, w') ← queue_batches rest w1;
      Some (stream (op w1) :: cells, w')
  end.

(** The number of reduction batches of a sequence. *)
Definition reductions
    (batches : list (list TensorTableEntry * Response * bool * bool)) : nat :=
  length (filter (fun b => b.1.2 = true) batches).

(** The outputs a kernel forwarded from an input by [set_output]. *)
Definition forwarded_outputs (trace : list Kernel.action) : list Z :=
  omap (fun a => match a with Kernel.SetOutput i => Some i | _ => None end)
    trace.

(** A kernel run [run] on the invocation [k] enqueues under the scoped
    name: it returns, every request it enqueues carries the name that
    [scoped_node_name] computes from the node's name and attribute, and it
    does enqueue a request when [reaches] holds.  With [ignore_name_scope]
    set that name contains no ['/'], is the node's name when the node's
    name contains none, is what follows a scope and a ['/'] in the node's
    name when it contains one, and is left as it is by another stripping;
    without the attribute it is the node's name. *)
Definition enqueues_under_scoped_name (k : KernelCall) (reaches : bool)
    (run : option (list Kernel.action)) : Prop :=
  ∃ trace node_name,
    run = Some trace ∧
    scoped_node_name (k_ignore_name_scope k) (k_name k) = Some node_name ∧
    (∀ r, r ∈ enqueued_requests trace -> enq_name r = node_name) ∧
    (reaches = true -> ∃ r, r ∈ enqueued_requests trace) ∧
    (k_ignore_name_scope k = true ->
     has_char slash node_name = false ∧
     (has_char slash (k_name k) = false -> node_name = k_name k) ∧
     (has_char slash (k_name k) = true ->
      ∃ scope, k_name k = String.append scope (String slash node_name)) ∧
     scoped_node_name true node_name = Some node_name) ∧
    (k_ignore_name_scope k = false -> node_name = k_name k).

(** Picks the trace a kernel run has reduced to, with the given name. *)
Ltac exists_trace_and_name node_name :=
  match goal with
  | |- ∃ trace name, Some ?t = Some trace ∧ _ => exists t, node_name
  end.

(** * Properties *)

(** ** Machine integers *)

Lemma int_wrap_small (z : Z) : - 2 ^ 31 <= z <= INT_MAX -> int_wrap z = z.
Proof.
  unfold int_wrap, INT_MAX. intros Hz.
  rewrite Z.mod_small; lia.
Qed.

Lemma to_size_t_small (z : Z) : 0 <= z <= INT_MAX -> to_size_t z = z.
Proof.
  unfold to_size_t, INT_MAX. intros Hz.
  apply Z.mod_small. lia.
Qed.

Lemma next_gpu_stream_mod (current size : Z) :
  0 <= current < size -> size <= INT_MAX ->
  next_gpu_stream current size = (current + 1) mod size.
Proof.
  intros Hc Hs. unfold next_gpu_stream.
  assert (Hm : 0 <= (current + 1) mod size < size)
    by (apply Z.mod_pos_bound; lia).
  unfold INT_MAX in *.
  rewrite (int_wrap_small (current + 1)) by (unfold INT_MAX; lia).
  rewrite to_size_t_small by (unfold INT_MAX; lia).
  apply int_wrap_small. unfold INT_MAX. lia.
Qed.

Lemma next_nccl_stream_mod (current num : Z) :
  0 <= current < num -> num <= INT_MAX ->
  next_nccl_stream current num = (current + 1) mod num.
Proof.
  intros Hc Hn. unfold next_nccl_stream.
  assert (Hm : 0 <= (current + 1) mod num < num)
    by (apply Z.mod_pos_bound; lia).
  unfold INT_MAX in *.
  rewrite (int_wrap_small (current + 1)) by (unfold INT_MAX; lia).
  rewrite Z.rem_mod_nonneg by lia.
  apply int_wrap_small. unfold INT_MAX. lia.
Qed.

Lemma vector_at_Some (v : list Z) (i x : Z) :
  vector_at v i = Some x -> 0 <= i < Z.of_nat (length v).
Proof.
  unfold vector_at. case_decide; [|done].
  intros Hx. apply lookup_lt_Some in Hx. lia.
Qed.

Lemma vector_at_in_range (v : list Z) (i : Z) :
  0 <= i < Z.of_nat (length v) -> is_Some (vector_at v i).
Proof.
  intros Hi. unfold vector_at. case_decide; [|lia].
  apply lookup_lt_is_Some. lia.
Qed.

(** ** Status conversion *)

Lemma round_trip_convertible (status : common.Status) :
  convertible (common.type status) = true ->
  common.type status ≠ common.OK ->
  round_trip status = status.
Proof.
  destruct status as [[] r]; simpl; intros Hc Hok; try done.
Qed.

(** C9.  Converting an engine status to a framework status and back keeps
    the type when it is OK, Unknown, PreconditionFailed, Aborted or
    InvalidArgument, and for the four error types among them keeps the
    reason text as well; a status of any other type becomes Unknown, and so
    does a framework status of any code outside the five the reverse
    conversion names. *)
Theorem ConvertStatus_round_trip (status : common.Status) :
  (convertible (common.type status) = true ->
   common.type (round_trip status) = common.type status ∧
   (common.type status ≠ common.OK ->
    common.reason (round_trip status) = common.reason status)) ∧
  (convertible (common.type status) = false ->
   tf.code (ConvertStatus_to_tf status) = tf.UNKNOWN ∧
   common.type (round_trip status) = common.UNKNOWN_ERROR) ∧
  (∀ s : tf.Status,
     tf.code s ∉ [tf.OK; tf.UNKNOWN; tf.FAILED_PRECONDITION; tf.ABORTED;
                  tf.INVALID_ARGUMENT] ->
     common.type (ConvertStatus_to_common s) = common.UNKNOWN_ERROR).
Proof.
  split; [|split].
  - intros Hc. destruct (decide (common.type status = common.OK)) as [Hok|Hne].
    + destruct status as [t r]; simpl in *; subst t. split; [done|]. done.
    + rewrite (round_trip_convertible status Hc Hne). done.
  - destruct status as [[] r]; simpl; intros Hc; done.
  - intros [c m] Hnot; simpl in *.
    destruct c; try done; exfalso; apply Hnot; set_solver.
Qed.

(** ** The stream table *)

Lemma address_of_cell_not_null (generation slot : Z) :
  is_nullptr (address_of_cell generation slot) = false.
Proof. reflexivity. Qed.

Lemma InitNewStream_eq (times : Z) (w : World) :
  InitNewStream times w =
  Some (with_op
          (set_new_stream
             (Some (current_nccl_stream (global_state w), Z.rem times 10 + 3)))
          w).
Proof. reflexivity. Qed.

(** [InitNewStream] never reaches [StreamCreate], whatever it is given. *)
Lemma InitNewStream_creates_nothing (times : Z) (w w' : World) :
  InitNewStream times w = Some w' ->
  gpu_context w' = gpu_context w ∧ calls w' = calls w ∧
  global_state w' = global_state w.
Proof.
  rewrite InitNewStream_eq. intros [= <-]. done.
Qed.

Lemma stream_at_StreamCreate (cell cell' : stream_cell) (w : World) :
  stream_at (StreamCreate cell w) cell' =
  if decide (cell = cell') then Some (next_stream (gpu_context w))
  else stream_at w cell'.
Proof.
  unfold stream_at, StreamCreate. simpl. apply lookup_insert.
Qed.

(** The check-then-create of [InitGPU]: what the call leaves in the table,
    cell by cell. *)
Lemma InitGPU_streams (entries : list TensorTableEntry)
    (is_allreduce is_para : bool) (w w' : World) :
  InitGPU entries is_allreduce is_para w = Some w' ->
  ∃ first_entry slot,
    head entries = Some first_entry ∧
    select_stream_index (global_state w) first_entry is_allreduce is_para
      = Some slot ∧
    global_state w' = global_state w ∧ op w' = op w ∧
    ∀ cell,
      stream_at w' cell =
      match stream_at w cell with
      | Some h => Some h
      | None =>
          if decide ((current_nccl_stream (global_state w), slot) = cell)
          then Some (next_stream (gpu_context w)) else None
      end.
Proof.
  unfold InitGPU. intros H.
  destruct (head entries) as [first_entry|] eqn:Hhead; [|done].
  simpl in H.
  destruct (select_stream_index (global_state w) first_entry
              is_allreduce is_para) as [slot|] eqn:Hsel; [|done].
  simpl in H. exists first_entry, slot.
  split; [done|]. split; [done|].
  set (cell0 := (current_nccl_stream (global_state w), slot)) in *.
  change (stream_at (SetDevice (device first_entry) w) cell0)
    with (stream_at w cell0) in H.
  destruct (stream_at w cell0) as [h|] eqn:Hcell; simpl in H;
    injection H as <-.
  - split; [done|]. split; [done|]. intros cell.
    change (stream_at (SetDevice (device first_entry) w) cell)
      with (stream_at w cell).
    destruct (stream_at w cell) eqn:Hc; [done|].
    case_decide; [congruence|done].
  - split; [done|]. split; [done|]. intros cell.
    rewrite stream_at_StreamCreate.
    change (stream_at (SetDevice (device first_entry) w) cell)
      with (stream_at w cell).
    change (next_stream (gpu_context (SetDevice (device first_entry) w)))
      with (next_stream (gpu_context w)).
    case_decide as Hd.
    + rewrite <- Hd, Hcell. rewrite decide_True by done. done.
    + destruct (stream_at w cell); [done|]. rewrite decide_False by done. done.
Qed.

(** No lookup of [InitGPU] deletes or replaces a stream. *)
Lemma InitGPU_keeps_streams (entries : list TensorTableEntry)
    (is_allreduce is_para : bool) (w w' : World) (cell : stream_cell)
    (h : positive) :
  InitGPU entries is_allreduce is_para w = Some w' ->
  stream_at w cell = Some h -> stream_at w' cell = Some h.
Proof.
  intros H Hc. apply InitGPU_streams in H as (e & slot & _ & _ & _ & _ & Hall).
  rewrite Hall, Hc. done.
Qed.

(** A second lookup of [InitGPU] for the same batch finds the streams of the
    first and creates nothing. *)
Lemma InitGPU_twice (entries : list TensorTableEntry)
    (is_allreduce is_para : bool) (w w1 : World) :
  InitGPU entries is_allreduce is_para w = Some w1 ->
  ∃ w2, InitGPU entries is_allreduce is_para w1 = Some w2 ∧
        gpu_context w2 = gpu_context w1.
Proof.
  intros H.
  destruct (InitGPU_streams _ _ _ _ _ H)
    as (e & slot & Hhead & Hsel & Hgs & Hop & Hall).
  unfold InitGPU. rewrite Hhead. simpl.
  change (global_state (SetDevice (device e) w1)) with (global_state w1).
  rewrite Hgs, Hsel. simpl.
  change (stream_at (SetDevice (device e) w1)
            (current_nccl_stream (global_state w), slot))
    with (stream_at w1 (current_nccl_stream (global_state w), slot)).
  rewrite Hall.
  destruct (stream_at w (current_nccl_stream (global_state w), slot));
    [|rewrite decide_True by done]; simpl; eexists; split; done.
Qed.

(** C10.  For a non-negative argument [InitNewStream] selects the slot
    (times mod 10) + 3, which lies between 3 and 12, and records its address
    in [new_stream]; the condition of its creation branch compares that
    address, which is never null, so the branch is not taken: the call
    creates no stream and changes neither the stream table nor the global
    state. *)
Theorem InitNewStream_slot (times : Z) (w : World) :
  0 <= times ->
  ∃ w',
    InitNewStream times w = Some w' ∧
    new_stream (op w') =
      Some (current_nccl_stream (global_state w), times mod 10 + 3) ∧
    3 <= times mod 10 + 3 <= 12 ∧
    is_nullptr
      (address_of_cell (current_nccl_stream (global_state w))
         (times mod 10 + 3)) = false ∧
    gpu_context w' = gpu_context w ∧
    calls w' = calls w ∧
    global_state w' = global_state w.
Proof.
  intros Ht. rewrite InitNewStream_eq. eexists. split; [done|].
  rewrite Z.rem_mod_nonneg by lia.
  pose proof (Z.mod_pos_bound times 10 ltac:(lia)).
  repeat split; simpl; lia || done.
Qed.

Lemma InitNewStream_slot_witness :
  ∃ w',
    InitNewStream 27 fresh_world = Some w' ∧
    new_stream (op w') =
      Some (current_nccl_stream (global_state fresh_world), 27 mod 10 + 3) ∧
    3 <= 27 mod 10 + 3 <= 12 ∧
    is_nullptr
      (address_of_cell (current_nccl_stream (global_state fresh_world))
         (27 mod 10 + 3)) = false ∧
    gpu_context w' = gpu_context fresh_world ∧
    calls w' = calls fresh_world ∧
    global_state w' = global_state fresh_world.
Proof. apply (InitNewStream_slot 27 fresh_world). lia. Defined.

(** C6.  On a context where no stream exists yet, the first lookup of
    [InitNewStream] for slot 3 of generation 0 hands out the address of the
    cell and leaves the cell holding the null handle: no stream is created,
    and none is by a second lookup either.  The lookup of [InitGPU] for the
    same key does create the stream. *)
Theorem InitNewStream_first_lookup_creates_nothing :
  (∃ w1 w2,
     InitNewStream 0 fresh_world = Some w1 ∧
     new_stream (op w1) = Some (0, 3) ∧
     stream_at w1 (0, 3) = None ∧
     InitNewStream 0 w1 = Some w2 ∧
     stream_at w2 (0, 3) = None) ∧
  (∃ w1,
     InitGPU single_batch false false fresh_world = Some w1 ∧
     stream_at w1 (0, 3) = Some 1%positive).
Proof.
  split.
  - do 2 eexists. rewrite !InitNewStream_eq. repeat split.
  - eexists. split; [reflexivity|]. vm_compute. reflexivity.
Qed.

(** ** Slot selection and the rotating pointer *)

Lemma select_stream_index_eq (g : HorovodGlobalState)
    (first_entry : TensorTableEntry) (is_allreduce is_para : bool)
    (assigned : Z) :
  (is_allreduce = true ->
   vector_at (stream_assignment g) (current_gpu_stream g) = Some assigned) ->
  select_stream_index g first_entry is_allreduce is_para =
  Some (if is_allreduce
        then if is_para then PARA_STREAM_INDEX else assigned
        else device first_entry).
Proof.
  intros Ha. unfold select_stream_index.
  destruct is_allreduce; [|done]. rewrite Ha by done. done.
Qed.

(** What [InitGPUQueue] leaves behind once the slot is known. *)
Lemma InitGPUQueue_eq (entries : list TensorTableEntry)
    (first_entry : TensorTableEntry) (response : Response)
    (is_allreduce is_para : bool) (w : World) (slot : Z) :
  head entries = Some first_entry ->
  select_stream_index (global_state w) first_entry is_allreduce is_para
    = Some slot ->
  (is_allreduce = true -> stream_assignment (global_state w) ≠ []) ->
  ∃ w',
    InitGPUQueue entries response is_allreduce is_para w = Some w' ∧
    stream (op w') = Some (current_nccl_stream (global_state w), slot) ∧
    current_gpu_stream (global_state w') =
      (if is_allreduce
       then next_gpu_stream (current_gpu_stream (global_state w))
              (Z.of_nat (length (stream_assignment (global_state w))))
       else current_gpu_stream (global_state w)) ∧
    stream_index (global_state w') =
      (if is_allreduce then slot else stream_index (global_state w)) ∧
    stream_assignment (global_state w') = stream_assignment (global_state w) ∧
    current_nccl_stream (global_state w') = current_nccl_stream (global_state w) ∧
    gpu_context w' = gpu_context w.
Proof.
  intros Hhead Hsel Hne. unfold InitGPUQueue. rewrite Hhead. simpl.
  change (global_state (with_op (set_event_queue []) w))
    with (global_state w).
  rewrite Hsel. simpl.
  destruct is_allreduce; simpl.
  - destruct (timeline_initialized (global_state w)); simpl;
      (case_decide as Hz;
       [ exfalso; apply Hne; [done|];
         destruct (stream_assignment (global_state w)); [done|];
         simpl in Hz; lia
       | eexists; repeat split; done ]).
  - destruct (timeline_initialized (global_state w)); simpl;
      eexists; repeat split; done.
Qed.

(** C3 (amended).  On a non-empty batch whose rotating pointer lies inside
    the assignment table when the batch is a reduction, [InitGPU] and
    [InitGPUQueue] select the same slot: the dedicated slot 8 when the batch
    is a reduction and [is_para] is set, the table's element at the pointer
    when it is a reduction and [is_para] is not set, and the first entry's
    device id when it is not a reduction, whatever [is_para] is.  [InitGPU]
    makes sure the cell of that slot in the current generation holds a
    stream and touches no other cell; [InitGPUQueue] points [stream] at that
    cell and, for a reduction, stores the slot in the global state. *)
Theorem stream_slot_selection (entries : list TensorTableEntry)
    (first_entry : TensorTableEntry) (rest : list TensorTableEntry)
    (response : Response) (is_allreduce is_para : bool) (w : World)
    (assigned : Z) :
  entries = first_entry :: rest ->
  (is_allreduce = true ->
   vector_at (stream_assignment (global_state w))
     (current_gpu_stream (global_state w)) = Some assigned) ->
  let slot :=
    if is_allreduce
    then if is_para then PARA_STREAM_INDEX else assigned
    else device first_entry in
  let cell := (current_nccl_stream (global_state w), slot) in
  (∃ w',
     InitGPU entries is_allreduce is_para w = Some w' ∧
     is_Some (stream_at w' cell) ∧
     ∀ c, c ≠ cell -> stream_at w' c = stream_at w c) ∧
  (∃ w',
     InitGPUQueue entries response is_allreduce is_para w = Some w' ∧
     stream (op w') = Some cell ∧
     (is_allreduce = true -> stream_index (global_state w') = slot)).
Proof.
  intros -> Ha slot cell.
  pose proof (select_stream_index_eq (global_state w) first_entry
                is_allreduce is_para assigned Ha) as Hsel.
  fold slot in Hsel. split.
  - destruct (InitGPU (first_entry :: rest) is_allreduce is_para w)
      as [w'|] eqn:Hinit.
    + exists w'. split; [done|].
      destruct (InitGPU_streams _ _ _ _ _ Hinit)
        as (e & slot' & Hhead & Hsel' & _ & _ & Hall).
      injection Hhead as <-. rewrite Hsel in Hsel'. injection Hsel' as <-.
      fold cell in Hall. split.
      * rewrite Hall. destruct (stream_at w cell); [done|].
        rewrite decide_True by done. done.
      * intros c Hc. rewrite Hall. destruct (stream_at w c); [done|].
        rewrite decide_False by done. done.
    + exfalso. unfold InitGPU in Hinit. simpl in Hinit.
      change (global_state (SetDevice (device first_entry) w))
        with (global_state w) in Hinit.
      rewrite Hsel in Hinit. simpl in Hinit.
      destruct (is_nullptr _) in Hinit; done.
  - destruct (InitGPUQueue_eq (first_entry :: rest) first_entry response
                is_allreduce is_para w slot eq_refl Hsel)
      as (w' & Hq & Hs & _ & Hidx & _).
    + intros Htrue Hnil. specialize (Ha Htrue). rewrite Hnil in Ha.
      unfold vector_at in Ha. case_decide; done.
    + exists w'. split; [done|]. split; [done|].
      intros Htrue. rewrite Hidx, Htrue. done.
Qed.

Lemma stream_slot_selection_witness :
  (∃ w',
     InitGPU single_batch true true fresh_world = Some w' ∧
     is_Some (stream_at w' (0, PARA_STREAM_INDEX)) ∧
     ∀ c, c ≠ (0, PARA_STREAM_INDEX) ->
          stream_at w' c = stream_at fresh_world c) ∧
  (∃ w',
     InitGPUQueue single_batch no_response true true fresh_world = Some w' ∧
     stream (op w') = Some (0, PARA_STREAM_INDEX) ∧
     (true = true -> stream_index (global_state w') = PARA_STREAM_INDEX)).
Proof.
  apply (stream_slot_selection single_batch
           (entry_on "grad" 3 (Some 1%positive)) [] no_response true true
           fresh_world 5).
  - reflexivity.
  - intros _. reflexivity.
Defined.

(** C3, as stated, fails: a batch that is not a reduction but has [is_para]
    set gets its first entry's device id as slot (3 here), where the
    specification's wording gives the dedicated slot 8. *)
Lemma dedicated_slot_needs_reduction :
  ∃ w',
    InitGPUQueue single_batch no_response false true fresh_world = Some w' ∧
    slot_as_specified (global_state fresh_world)
      (entry_on "grad" 3 (Some 1%positive)) false true
      = Some PARA_STREAM_INDEX ∧
    stream (op w') = Some (0, 3) ∧
    stream (op w') ≠ Some (0, PARA_STREAM_INDEX) ∧
    select_stream_index (global_state fresh_world)
      (entry_on "grad" 3 (Some 1%positive)) false true
    ≠ slot_as_specified (global_state fresh_world)
        (entry_on "grad" 3 (Some 1%positive)) false true.
Proof.
  eexists. split; [reflexivity|]. repeat split; simpl; discriminate.
Qed.

(** C4 (amended).  The rotating pointer is moved by [InitGPUQueue], not by
    [InitGPU].  On a non-empty batch, with the pointer inside the assignment
    table when the batch is a reduction: [InitGPU] leaves the pointer where
    it is for every batch; [InitGPUQueue] leaves it at (pointer + 1) modulo
    the table's size for a reduction batch, one step whatever the number of
    entries, and unchanged for any other batch; the table itself is not
    changed. *)
Theorem rotation_pointer_advance (entries : list TensorTableEntry)
    (first_entry : TensorTableEntry) (rest : list TensorTableEntry)
    (response : Response) (is_allreduce is_para : bool) (w : World) :
  entries = first_entry :: rest ->
  (is_allreduce = true ->
   0 <= current_gpu_stream (global_state w)
     < Z.of_nat (length (stream_assignment (global_state w)))
   ∧ Z.of_nat (length (stream_assignment (global_state w))) <= INT_MAX) ->
  (∃ w',
     InitGPU entries is_allreduce is_para w = Some w' ∧
     current_gpu_stream (global_state w')
       = current_gpu_stream (global_state w)) ∧
  (∃ w',
     InitGPUQueue entries response is_allreduce is_para w = Some w' ∧
     current_gpu_stream (global_state w') =
       (if is_allreduce
        then (current_gpu_stream (global_state w) + 1)
               mod Z.of_nat (length (stream_assignment (global_state w)))
        else current_gpu_stream (global_state w)) ∧
     stream_assignment (global_state w')
       = stream_assignment (global_state w)).
Proof.
  intros -> Hrange.
  assert (Hsel : ∃ slot,
             select_stream_index (global_state w) first_entry
               is_allreduce is_para = Some slot).
  { destruct is_allreduce.
    - destruct (vector_at_in_range (stream_assignment (global_state w))
                  (current_gpu_stream (global_state w))) as [a Ha].
      { apply Hrange. done. }
      eexists. apply (select_stream_index_eq _ _ true is_para a). done.
    - eexists. reflexivity. }
  destruct Hsel as [slot Hsel]. split.
  - unfold InitGPU. simpl.
    change (global_state (SetDevice (device first_entry) w))
      with (global_state w).
    rewrite Hsel. simpl.
    destruct (is_nullptr _); eexists; split; done.
  - destruct (InitGPUQueue_eq (first_entry :: rest) first_entry response
                is_allreduce is_para w slot eq_refl Hsel)
      as (w' & Hq & _ & Hcur & _ & Htab & _).
    + intros Htrue Hnil. destruct (Hrange Htrue) as [Hr _].
      rewrite Hnil in Hr. simpl in Hr. lia.
    + exists w'. split; [done|]. split; [|done].
      rewrite Hcur. destruct is_allreduce; [|done].
      destruct (Hrange eq_refl) as [Hr Hmax].
      apply next_gpu_stream_mod; done.
Qed.

Lemma rotation_pointer_advance_witness :
  (∃ w',
     InitGPU fused_batch true false fresh_world = Some w' ∧
     current_gpu_stream (global_state w')
       = current_gpu_stream (global_state fresh_world)) ∧
  (∃ w',
     InitGPUQueue fused_batch no_response true false fresh_world = Some w' ∧
     current_gpu_stream (global_state w') =
       (if true
        then (current_gpu_stream (global_state fresh_world) + 1)
               mod Z.of_nat
                     (length (stream_assignment (global_state fresh_world)))
        else current_gpu_stream (global_state fresh_world)) ∧
     stream_assignment (global_state w')
       = stream_assignment (global_state fresh_world)).
Proof.
  apply (rotation_pointer_advance fused_batch
           (entry_on "grad_a" 0 (Some 1%positive))
           [entry_on "grad_b" 0 (Some 2%positive);
            entry_on "grad_c" 0 (Some 3%positive)]
           no_response true false fresh_world).
  - reflexivity.
  - intros _. simpl. unfold INT_MAX. lia.
Defined.

(** C4, as stated, fails: [InitGPU] on a reduction batch leaves the
    rotating pointer at 0, where one step modulo the table's size gives
    1. *)
Lemma InitGPU_leaves_rotation_pointer :
  ∃ w',
    InitGPU fused_batch true false fresh_world = Some w' ∧
    current_gpu_stream (global_state w') = 0 ∧
    (current_gpu_stream (global_state fresh_world) + 1)
      mod Z.of_nat (length (stream_assignment (global_state fresh_world)))
    = 1 ∧
    current_gpu_stream (global_state w') ≠
    (current_gpu_stream (global_state fresh_world) + 1)
      mod Z.of_nat (length (stream_assignment (global_state fresh_world))).
Proof.
  eexists. split; [reflexivity|]. repeat split. simpl. discriminate.
Qed.

(** ** Finalization: the hand-off *)

Lemma FinalizeGPUQueue_eq (entries : list TensorTableEntry)
    (first_entry : TensorTableEntry) (free_host_buffer : bool)
    (error_check_callback : ErrorCheck) (w : World) (cell : stream_cell) :
  stream (op w) = Some cell ->
  head entries = Some first_entry ->
  num_nccl_streams (global_state w) ≠ 0 ->
  ∃ w',
    FinalizeGPUQueue entries free_host_buffer error_check_callback w
      = Some (common.InProgress, w') ∧
    event_queue (op w')
      = event_queue (op w) ++ [(EmptyString, mkEvent (stream_at w cell))] ∧
    stream (op w') = stream (op w) ∧
    host_buffer (op w') = host_buffer (op w) ∧
    finalizer_thread_pool (gpu_context w') =
      finalizer_thread_pool (gpu_context w)
        ++ [closure_of entries first_entry free_host_buffer
              error_check_callback cell w] ∧
    streams (gpu_context w') = streams (gpu_context w) ∧
    calls w' =
      calls w
        ++ [Call.RecordEvent EmptyString (stream_at w cell);
            Call.GetBuffer
              (GetBuffer (device first_entry) (framework first_entry)
                 (current_nccl_stream (global_state w)));
            Call.Execute
              (closure_of entries first_entry free_host_buffer
                 error_check_callback cell w)] ∧
    current_nccl_stream (global_state w') =
      next_nccl_stream (current_nccl_stream (global_state w))
        (num_nccl_streams (global_state w)) ∧
    num_nccl_streams (global_state w') = num_nccl_streams (global_state w) ∧
    current_gpu_stream (global_state w')
      = current_gpu_stream (global_state w).
Proof.
  intros Hs Hhead Hnum. unfold FinalizeGPUQueue.
  rewrite Hs. simpl. rewrite Hhead. simpl.
  rewrite decide_False by done.
  eexists. split; [reflexivity|]. simpl.
  repeat split; try done.
  rewrite <- !app_assoc. done.
Qed.

(** C2.  On a batch with at least one entry, a stream pointer set by
    [InitGPUQueue] and a non-zero number of generations,
    [FinalizeGPUQueue] returns, and returns the in-progress status (not OK,
    not one of the error types).  The calling thread makes three calls and
    no other: it records a marker with the empty name on the batch's stream,
    which becomes the last element of the event queue; it takes the
    reference to the fusion buffer; it hands one closure, holding the
    entries and a copy of that event queue, to the finalizer pool, whose
    queue grows by exactly that one task.  Nothing is waited for on the
    calling thread. *)
Theorem FinalizeGPUQueue_hands_off (entries : list TensorTableEntry)
    (free_host_buffer : bool) (error_check_callback : ErrorCheck)
    (w : World) (cell : stream_cell) :
  entries ≠ [] ->
  stream (op w) = Some cell ->
  num_nccl_streams (global_state w) ≠ 0 ->
  ∃ st w' task,
    FinalizeGPUQueue entries free_host_buffer error_check_callback w
      = Some (st, w') ∧
    st = common.InProgress ∧
    (common.type st ∉ [common.OK; common.UNKNOWN_ERROR;
                       common.PRECONDITION_ERROR; common.ABORTED;
                       common.INVALID_ARGUMENT]) ∧
    event_queue (op w')
      = event_queue (op w) ++ [(EmptyString, mkEvent (stream_at w cell))] ∧
    finalizer_thread_pool (gpu_context w')
      = finalizer_thread_pool (gpu_context w) ++ [task] ∧
    t_entries task = entries ∧
    t_evt_queue task = event_queue (op w') ∧
    t_free_host_buffer task = free_host_buffer ∧
    t_cpu_buffer task = host_buffer (op w) ∧
    calls w' =
      calls w
        ++ [Call.RecordEvent EmptyString (stream_at w cell);
            Call.GetBuffer (t_fusion_buffer task);
            Call.Execute task].
Proof.
  intros Hne Hs Hnum.
  destruct entries as [|first_entry rest]; [done|].
  destruct (FinalizeGPUQueue_eq (first_entry :: rest) first_entry
              free_host_buffer error_check_callback w cell Hs eq_refl Hnum)
    as (w' & Hf & Hq & _ & _ & Hpool & _ & Hcalls & _).
  exists common.InProgress, w',
    (closure_of (first_entry :: rest) first_entry free_host_buffer
       error_check_callback cell w).
  split; [done|]. split; [done|]. split.
  { simpl. intros Hin.
    repeat (apply elem_of_cons in Hin as [Hin|Hin]; [discriminate|]).
    apply elem_of_nil in Hin. done. }
  split; [done|]. split; [done|]. split; [done|].
  split; [rewrite Hq; done|]. split; [done|]. split; [done|]. done.
Qed.

Lemma FinalizeGPUQueue_hands_off_witness :
  ∃ st w' task,
    FinalizeGPUQueue fused_batch true hardware_fault queued_world
      = Some (st, w') ∧
    st = common.InProgress ∧
    (common.type st ∉ [common.OK; common.UNKNOWN_ERROR;
                       common.PRECONDITION_ERROR; common.ABORTED;
                       common.INVALID_ARGUMENT]) ∧
    event_queue (op w')
      = event_queue (op queued_world)
          ++ [(EmptyString, mkEvent (stream_at queued_world (0, 3)))] ∧
    finalizer_thread_pool (gpu_context w')
      = finalizer_thread_pool (gpu_context queued_world) ++ [task] ∧
    t_entries task = fused_batch ∧
    t_evt_queue task = event_queue (op w') ∧
    t_free_host_buffer task = true ∧
    t_cpu_buffer task = host_buffer (op queued_world) ∧
    calls w' =
      calls queued_world
        ++ [Call.RecordEvent EmptyString (stream_at queued_world (0, 3));
            Call.GetBuffer (t_fusion_buffer task);
            Call.Execute task].
Proof.
  apply (FinalizeGPUQueue_hands_off fused_batch true hardware_fault
           queued_world (0, 3)).
  - discriminate.
  - reflexivity.
  - simpl. lia.
Defined.

(** ** Finalization: the generation index *)

Lemma finalize_batches_generation
    (batches : list (list TensorTableEntry * bool * ErrorCheck)) :
  ∀ (w : World) (cell : stream_cell),
    stream (op w) = Some cell ->
    0 <= current_nccl_stream (global_state w)
      < num_nccl_streams (global_state w) ->
    num_nccl_streams (global_state w) <= INT_MAX ->
    Forall (fun b => b.1.1 ≠ []) batches ->
    ∃ w',
      finalize_batches batches w = Some w' ∧
      current_nccl_stream (global_state w') =
        (current_nccl_stream (global_state w) + Z.of_nat (length batches))
          mod num_nccl_streams (global_state w) ∧
      num_nccl_streams (global_state w') = num_nccl_streams (global_state w) ∧
      length (finalizer_thread_pool (gpu_context w')) =
        (length (finalizer_thread_pool (gpu_context w)) + length batches)%nat.
Proof.
  induction batches as [|[[entries free_host_buffer] check] rest IH];
    intros w cell Hs Hcur Hmax Hall.
  - exists w. split; [done|]. simpl.
    rewrite Z.add_0_r, Z.mod_small by done. split; [done|]. split; [done|]. lia.
  - apply Forall_cons in Hall as [Hne Hall]. simpl in Hne.
    destruct entries as [|first_entry more]; [done|].
    destruct (FinalizeGPUQueue_eq (first_entry :: more) first_entry
                free_host_buffer check w cell Hs eq_refl ltac:(lia))
      as (w1 & Hf & _ & Hs1 & _ & Hpool & _ & _ & Hgen & Hnum & _).
    rewrite next_nccl_stream_mod in Hgen by done.
    destruct (IH w1 cell) as (w' & Hrun & Hgen' & Hnum' & Hpool').
    + rewrite Hs1. done.
    + rewrite Hgen, Hnum. apply Z.mod_pos_bound. lia.
    + rewrite Hnum. done.
    + done.
    + exists w'. simpl finalize_batches. rewrite Hf.
      split; [done|]. split; [|split].
      * rewrite Hgen', Hgen, Hnum.
        rewrite Zplus_mod_idemp_l. f_equal.
        rewrite length_cons. lia.
      * rewrite Hnum'. done.
      * rewrite Hpool', Hpool, length_app. simpl. lia.
Qed.

(** C5.  Starting from a generation index inside [0, number of
    generations), every [FinalizeGPUQueue] of a non-empty batch submits one
    task and then moves the index to (index + 1) modulo the number of
    generations: after any sequence of batches on one context the pool holds
    one more task per batch, the index is (index + number of batches) modulo
    the number of generations, so it is still inside the range, it has taken
    the generations in order, and after as many batches as there are
    generations it is back where it started. *)
Theorem generation_index_rotation
    (batches : list (list TensorTableEntry * bool * ErrorCheck))
    (w : World) (cell : stream_cell) :
  stream (op w) = Some cell ->
  0 <= current_nccl_stream (global_state w)
    < num_nccl_streams (global_state w) ->
  num_nccl_streams (global_state w) <= INT_MAX ->
  Forall (fun b => b.1.1 ≠ []) batches ->
  ∃ w',
    finalize_batches batches w = Some w' ∧
    current_nccl_stream (global_state w') =
      (current_nccl_stream (global_state w) + Z.of_nat (length batches))
        mod num_nccl_streams (global_state w) ∧
    0 <= current_nccl_stream (global_state w')
      < num_nccl_streams (global_state w') ∧
    num_nccl_streams (global_state w') = num_nccl_streams (global_state w) ∧
    length (finalizer_thread_pool (gpu_context w')) =
      (length (finalizer_thread_pool (gpu_context w)) + length batches)%nat ∧
    (length batches = 1%nat ->
     current_nccl_stream (global_state w') =
       (current_nccl_stream (global_state w) + 1)
         mod num_nccl_streams (global_state w)) ∧
    (Z.of_nat (length batches) = num_nccl_streams (global_state w) ->
     current_nccl_stream (global_state w')
       = current_nccl_stream (global_state w)).
Proof.
  intros Hs Hcur Hmax Hall.
  destruct (finalize_batches_generation batches w cell Hs Hcur Hmax Hall)
    as (w' & Hrun & Hgen & Hnum & Hpool).
  exists w'. split; [done|]. split; [done|]. split.
  { rewrite Hgen, Hnum. apply Z.mod_pos_bound. lia. }
  split; [done|]. split; [done|]. split.
  - intros H1. rewrite Hgen, H1. done.
  - intros Hn. rewrite Hgen, Hn.
    rewrite <- (Z.mul_1_l (num_nccl_streams (global_state w))) at 1.
    rewrite Z.mod_add by lia. apply Z.mod_small. done.
Qed.

Lemma generation_index_rotation_witness :
  ∃ w',
    finalize_batches
      [(fused_batch, true, no_fault); (join_batch, true, no_fault);
       (single_batch, false, hardware_fault)] queued_world = Some w' ∧
    current_nccl_stream (global_state w') =
      (current_nccl_stream (global_state queued_world) + Z.of_nat 3)
        mod num_nccl_streams (global_state queued_world) ∧
    0 <= current_nccl_stream (global_state w')
      < num_nccl_streams (global_state w') ∧
    num_nccl_streams (global_state w')
      = num_nccl_streams (global_state queued_world) ∧
    length (finalizer_thread_pool (gpu_context w')) =
      (length (finalizer_thread_pool (gpu_context queued_world)) + 3)%nat ∧
    (3%nat = 1%nat ->
     current_nccl_stream (global_state w') =
       (current_nccl_stream (global_state queued_world) + 1)
         mod num_nccl_streams (global_state queued_world)) ∧
    (Z.of_nat 3 = num_nccl_streams (global_state queued_world) ->
     current_nccl_stream (global_state w')
       = current_nccl_stream (global_state queued_world)).
Proof.
  apply (generation_index_rotation
           [(fused_batch, true, no_fault); (join_batch, true, no_fault);
            (single_batch, false, hardware_fault)] queued_world (0, 3)).
  - reflexivity.
  - simpl. lia.
  - simpl. unfold INT_MAX. lia.
  - repeat constructor; discriminate.
Defined.

(** ** Finalization: the task on the pool *)

Lemma delivered_app (a b : list Call.t) :
  delivered (a ++ b) = delivered a ++ delivered b.
Proof. unfold delivered. apply flat_map_app. Qed.

Lemma freed_app (a b : list Call.t) : freed (a ++ b) = freed a ++ freed b.
Proof. unfold freed. apply flat_map_app. Qed.

Lemma delivered_free_cpu_buffer (f : bool) (b : option positive) :
  delivered (free_cpu_buffer f b) = [].
Proof. destruct f, b; reflexivity. Qed.

Lemma freed_free_cpu_buffer (f : bool) (b : option positive) :
  freed (free_cpu_buffer f b) = buffer_to_free f b.
Proof. destruct f, b; reflexivity. Qed.

Lemma delivered_notify (entries : list TensorTableEntry) :
  delivered (flat_map notify entries) = ok_deliveries entries.
Proof.
  induction entries as [|e rest IH]; [done|].
  change (flat_map notify (e :: rest))
    with (notify e ++ flat_map notify rest).
  rewrite delivered_app, IH.
  unfold ok_deliveries, notify. simpl.
  destruct (callback e); done.
Qed.

Lemma freed_notify (entries : list TensorTableEntry) :
  freed (flat_map notify entries) = [].
Proof.
  induction entries as [|e rest IH]; [done|].
  change (flat_map notify (e :: rest))
    with (notify e ++ flat_map notify rest).
  rewrite freed_app, IH.
  unfold notify. destruct (callback e); done.
Qed.

Lemma elem_of_ok_deliveries (entries : list TensorTableEntry)
    (cb : positive) (st : common.Status) :
  (cb, st) ∈ ok_deliveries entries ↔
  st = common.Status_OK ∧ ∃ e, e ∈ entries ∧ callback e = Some cb.
Proof.
  unfold ok_deliveries. rewrite list_elem_of_omap. split.
  - intros (e & He & Hcb). destruct (callback e) as [cb'|] eqn:Hc; [|done].
    simpl in Hcb. injection Hcb as <- <-. eauto.
  - intros [-> (e & He & Hcb)]. exists e. rewrite Hcb. done.
Qed.

Lemma length_ok_deliveries (entries : list TensorTableEntry) :
  length (ok_deliveries entries)
  = length (filter (fun e => is_Some (callback e)) entries).
Proof.
  unfold ok_deliveries.
  induction entries as [|e rest IH]; [done|].
  simpl. destruct (callback e) as [cb|] eqn:Hcb; simpl.
  - rewrite filter_cons_True by (rewrite Hcb; eauto).
    simpl. f_equal. exact IH.
  - rewrite filter_cons_False by (rewrite Hcb; apply is_Some_None).
    exact IH.
Qed.

(** The two ways the task can end, with what it did before. *)
Lemma finalizer_task_cases
    (W : event_queue_t -> list TensorTableEntry -> ErrorCheck -> completion)
    (t : FinalizerTask) :
  (W (t_evt_queue t) (t_entries t) (t_error_check_callback t) = Returns ∧
   (finalizer_task W t).2 = Returns ∧
   delivered (finalizer_task W t).1 = ok_deliveries (t_entries t) ∧
   freed (finalizer_task W t).1
     = buffer_to_free (t_free_host_buffer t) (t_cpu_buffer t)) ∨
  (∃ what,
     W (t_evt_queue t) (t_entries t) (t_error_check_callback t) = Throws what ∧
     (finalizer_task W t).2 = Throws what ∧
     delivered (finalizer_task W t).1 = [] ∧
     freed (finalizer_task W t).1 = []).
Proof.
  unfold finalizer_task.
  destruct (W (t_evt_queue t) (t_entries t) (t_error_check_callback t))
    as [|what] eqn:Hw.
  - left. split; [done|]. split; [done|]. cbn [fst]. split.
    + rewrite !delivered_app, delivered_free_cpu_buffer, delivered_notify.
      done.
    + rewrite !freed_app, freed_free_cpu_buffer, freed_notify.
      cbn [freed flat_map app]. apply app_nil_r.
  - right. exists what. done.
Qed.

(** C7 (amended).  For every batch handed to the finalization task whose
    event wait returns, the task runs to its end without an error; the
    callbacks it invokes are those of the entries that have one, each once,
    in batch order, entries with a null callback being passed over; and the
    host buffer is freed, once, exactly when [free_host_buffer] was asked
    for and the buffer pointer is not null. *)
Theorem finalizer_task_skips_null_callbacks
    (W : event_queue_t -> list TensorTableEntry -> ErrorCheck -> completion)
    (t : FinalizerTask) :
  W (t_evt_queue t) (t_entries t) (t_error_check_callback t) = Returns ->
  (finalizer_task W t).2 = Returns ∧
  delivered (finalizer_task W t).1 = ok_deliveries (t_entries t) ∧
  (∀ e cb, e ∈ t_entries t -> callback e = Some cb ->
           (cb, common.Status_OK) ∈ delivered (finalizer_task W t).1) ∧
  length (delivered (finalizer_task W t).1)
    = length (filter (fun e => is_Some (callback e)) (t_entries t)) ∧
  freed (finalizer_task W t).1
    = buffer_to_free (t_free_host_buffer t) (t_cpu_buffer t) ∧
  (∀ p, p ∈ freed (finalizer_task W t).1 ↔
        t_free_host_buffer t = true ∧ t_cpu_buffer t = Some p).
Proof.
  intros Hw.
  destruct (finalizer_task_cases W t)
    as [(_ & Hend & Hd & Hf)|(what & Hthrow & _)]; [|congruence].
  split; [done|]. split; [done|]. split; [|split; [|split; [done|]]].
  - intros e cb He Hcb. rewrite Hd. apply elem_of_ok_deliveries. eauto.
  - rewrite Hd. apply length_ok_deliveries.
  - intros p. rewrite Hf. unfold buffer_to_free.
    destruct (t_free_host_buffer t); destruct (t_cpu_buffer t) as [q|];
      simpl.
    + rewrite list_elem_of_singleton.
      split; [intros ->; done | intros [_ [= ->]]; done].
    + rewrite elem_of_nil. split; [done | intros [_ [=]]].
    + rewrite elem_of_nil. split; [done | intros [[=] _]].
    + rewrite elem_of_nil. split; [done | intros [[=] _]].
Qed.

Lemma finalizer_task_skips_null_callbacks_witness :
  (finalizer_task (WaitForEvents_model (fun _ => true)) join_task).2
    = Returns ∧
  delivered (finalizer_task (WaitForEvents_model (fun _ => true)) join_task).1
    = ok_deliveries (t_entries join_task) ∧
  (∀ e cb, e ∈ t_entries join_task -> callback e = Some cb ->
           (cb, common.Status_OK)
             ∈ delivered
                 (finalizer_task (WaitForEvents_model (fun _ => true))
                    join_task).1) ∧
  length
    (delivered
       (finalizer_task (WaitForEvents_model (fun _ => true)) join_task).1)
    = length (filter (fun e => is_Some (callback e)) (t_entries join_task)) ∧
  freed (finalizer_task (WaitForEvents_model (fun _ => true)) join_task).1
    = buffer_to_free (t_free_host_buffer join_task) (t_cpu_buffer join_task) ∧
  (∀ p, p ∈ freed
              (finalizer_task (WaitForEvents_model (fun _ => true))
                 join_task).1 ↔
        t_free_host_buffer join_task = true ∧ t_cpu_buffer join_task = Some p).
Proof.
  apply (finalizer_task_skips_null_callbacks
           (WaitForEvents_model (fun _ => true)) join_task).
  reflexivity.
Defined.

(** C7, as stated for every batch, fails: when the event wait is left by
    an exception the task stops there.  For the fused batch of three
    entries, all with a callback, whose wait raises the hardware fault, no
    callback is invoked although none is null, and the host buffer is not
    freed although its release was asked for and the pointer is not
    null. *)
Lemma wait_exception_leaves_batch_unnotified :
  faulty_run.2 = Throws "hardware fault" ∧
  ¬ (∀ e cb, e ∈ t_entries faulty_task -> callback e = Some cb ->
             ∃ st, (cb, st) ∈ delivered faulty_run.1) ∧
  ¬ (∀ p, p ∈ freed faulty_run.1 ↔
          t_free_host_buffer faulty_task = true ∧
          t_cpu_buffer faulty_task = Some p).
Proof.
  split; [reflexivity|]. split.
  - intros Hall.
    destruct (Hall (entry_on "grad_a" 0 (Some 1%positive)) 1%positive)
      as (st & Hin).
    + apply list_elem_of_here.
    + reflexivity.
    + apply elem_of_nil in Hin. done.
  - intros Hfree.
    destruct (Hfree 9%positive) as [_ Hback].
    assert (Hin : 9%positive ∈ freed faulty_run.1) by (apply Hback; done).
    apply elem_of_nil in Hin. done.
Qed.

(** C1 (amended).  The finalization task never hands a failure status to a
    completion callback.  Whatever the event wait and the error-check
    callback do, every status a callback receives from the task is the OK
    status.  If the wait returns, every entry of the batch with a non-null
    callback receives the OK status (all entries alike) and the host buffer
    is freed when that was asked for and the pointer is not null.  If the
    wait is left by an exception, the only way the error-check callback has
    to report, the task ends with that exception before it frees the host
    buffer or invokes any callback: no entry of the batch is notified. *)
Theorem finalizer_task_status
    (W : event_queue_t -> list TensorTableEntry -> ErrorCheck -> completion)
    (t : FinalizerTask) :
  (∀ cb st, (cb, st) ∈ delivered (finalizer_task W t).1 ->
            st = common.Status_OK) ∧
  ((finalizer_task W t).2 = Returns ->
   delivered (finalizer_task W t).1 = ok_deliveries (t_entries t) ∧
   freed (finalizer_task W t).1
     = buffer_to_free (t_free_host_buffer t) (t_cpu_buffer t)) ∧
  (∀ what, (finalizer_task W t).2 = Throws what ->
           W (t_evt_queue t) (t_entries t) (t_error_check_callback t)
             = Throws what ∧
           delivered (finalizer_task W t).1 = [] ∧
           freed (finalizer_task W t).1 = []).
Proof.
  destruct (finalizer_task_cases W t)
    as [(Hw & Hend & Hd & Hf)|(what & Hw & Hend & Hd & Hf)].
  - split; [|split].
    + intros cb st. rewrite Hd, elem_of_ok_deliveries. tauto.
    + done.
    + intros what. rewrite Hend. done.
  - split; [|split].
    + intros cb st. rewrite Hd, elem_of_nil. done.
    + rewrite Hend. done.
    + intros what'. rewrite Hend. intros [= <-]. done.
Qed.

(** C1, as stated, fails.  For a fused batch of three entries with
    callbacks whose final marker reports a hardware error to an error-check
    callback that raises it, the task ends with the exception: no callback
    is invoked, so no entry receives a failure status, and the host buffer,
    whose release was asked for, is not freed.  With an error-check callback
    that comes back without an exception the entries that have a callback
    receive the OK status. *)
Lemma device_fault_reaches_no_callback :
  faulty_run.2 = Throws "hardware fault" ∧
  delivered faulty_run.1 = [] ∧
  freed faulty_run.1 = [] ∧
  t_free_host_buffer faulty_task = true ∧
  t_cpu_buffer faulty_task = Some 9%positive ∧
  ¬ (∀ e cb, e ∈ t_entries faulty_task -> callback e = Some cb ->
             ∃ st, common.type st ≠ common.OK ∧
                   (cb, st) ∈ delivered faulty_run.1) ∧
  delivered join_run.1
    = [(1%positive, common.Status_OK); (3%positive, common.Status_OK)].
Proof.
  repeat split.
  intros Hall.
  destruct (Hall (entry_on "grad_a" 0 (Some 1%positive)) 1%positive)
    as (st & _ & Hin).
  - apply list_elem_of_here.
  - reflexivity.
  - apply elem_of_nil in Hin. done.
Qed.

(** ** AllocateZeros *)








(** * Further properties of the adapter *)

(** ** Element types *)

(** X1.  The two element-type conversions are inverse to each other on the
    ten types the adapter handles: a framework type read by
    [TFTensor::dtype] and converted back by [GetTFDataType] is itself, and
    an engine type that [GetTFDataType] accepts is read back by
    [TFTensor::dtype] as itself.  Either conversion raises its logic error
    on every other enumerator. *)
Theorem dtype_round_trip :
  (∀ t : tf.DataType,
     TFTensor_dtype (Supported t) ≫= GetTFDataType = Some t) ∧
  (∀ (d : common.DataType) (t : tf.DataType),
     GetTFDataType d = Some t -> TFTensor_dtype (Supported t) = Some d) ∧
  (∀ d : common.DataType,
     GetTFDataType d = None ↔ ∃ raw, d = common.HOROVOD_INVALID raw) ∧
  (∀ t : TFDataType,
     TFTensor_dtype t = None ↔ ∃ raw, t = Unsupported raw).
Proof.
  split; [|split; [|split]].
  - intros []; reflexivity.
  - intros [] t Hd; simpl in Hd; try discriminate;
      injection Hd as <-; reflexivity.
  - intros d. split.
    + destruct d; simpl; try discriminate. eauto.
    + intros [raw ->]. reflexivity.
  - intros t. split.
    + destruct t as [[]|raw]; simpl; try discriminate. eauto.
    + intros [raw ->]. reflexivity.
Qed.

(** ** Status conversion *)

Lemma to_common_ok (s : tf.Status) :
  common.type (ConvertStatus_to_common s) = common.OK ↔ tf.ok s = true.
Proof. destruct s as [[] m]; simpl; split; intros H; done. Qed.

Lemma to_tf_ok (status : common.Status) :
  tf.ok (ConvertStatus_to_tf status) = true ↔ common.type status = common.OK.
Proof. destruct status as [[] r]; simpl; split; intros H; done. Qed.

(** X2.  Neither conversion turns a failure into a success or a success
    into a failure: the framework status made from an engine status is OK
    exactly when the engine status has the type OK, and the engine status
    made from a framework status has the type OK exactly when the framework
    status is OK. *)
Theorem ConvertStatus_keeps_success (status : common.Status)
    (s : tf.Status) :
  (tf.ok (ConvertStatus_to_tf status) = true
   ↔ common.type status = common.OK) ∧
  (common.type (ConvertStatus_to_common s) = common.OK
   ↔ tf.ok s = true).
Proof.
  split; [apply to_tf_ok | apply to_common_ok].
Qed.

(** X3.  A framework status with one of the codes UNKNOWN,
    FAILED_PRECONDITION, ABORTED or INVALID_ARGUMENT comes back unchanged,
    code and message, from the conversion to an engine status and back.  A
    framework status with any other error code comes back as UNKNOWN with
    the fixed message, its own message being dropped. *)
Theorem ConvertStatus_framework_round_trip (s : tf.Status) :
  (tf.code s ∈ [tf.UNKNOWN; tf.FAILED_PRECONDITION; tf.ABORTED;
                tf.INVALID_ARGUMENT] ->
   ConvertStatus_to_tf (ConvertStatus_to_common s) = s) ∧
  (tf.code s ∉ [tf.OK; tf.UNKNOWN; tf.FAILED_PRECONDITION; tf.ABORTED;
                tf.INVALID_ARGUMENT] ->
   ConvertStatus_to_common s = common.UnknownError "Unknown error." ∧
   ConvertStatus_to_tf (ConvertStatus_to_common s)
     = tf.errors.Unknown "Unknown error.").
Proof.
  destruct s as [c m]. split; simpl.
  - intros Hin.
    repeat (apply elem_of_cons in Hin as [->|Hin]; [reflexivity|]).
    apply elem_of_nil in Hin. done.
  - intros Hnot.
    destruct c; try (split; reflexivity); exfalso; apply Hnot;
      repeat first [apply list_elem_of_here | apply list_elem_of_further].
Qed.

(** ** Shapes *)

Lemma add_dims_from_spec (rest done_dims tf_shape : TensorShape) :
  add_dims_from (length rest) (Z.of_nat (length done_dims))
    (done_dims ++ rest) tf_shape
  = Some (tf_shape ++ rest).
Proof.
  revert done_dims tf_shape.
  induction rest as [|dim rest IH]; intros done_dims tf_shape.
  - simpl. rewrite decide_False.
    + rewrite app_nil_r. done.
    + unfold dims. rewrite app_nil_r. lia.
  - simpl. rewrite decide_True.
    2:{ unfold dims. rewrite length_app. simpl. lia. }
    unfold dim_size, vector_at. rewrite decide_True by lia.
    rewrite Nat2Z.id.
    rewrite lookup_app_r by lia. rewrite Nat.sub_diag. simpl.
    replace (Z.of_nat (length done_dims) + 1)
      with (Z.of_nat (length (done_dims ++ [dim])))
      by (rewrite length_app; simpl; lia).
    replace (done_dims ++ dim :: rest) with ((done_dims ++ [dim]) ++ rest)
      by (rewrite <- app_assoc; done).
    rewrite IH. unfold AddDim. rewrite <- app_assoc. done.
Qed.

Lemma TFTensor_shape_from (acc tensor_shape : TensorShape) :
  foldl (fun shape dim => AddDim dim shape) acc tensor_shape
  = acc ++ tensor_shape.
Proof.
  revert acc. induction tensor_shape as [|dim rest IH]; intros acc; simpl.
  - rewrite app_nil_r. done.
  - rewrite IH. unfold AddDim. rewrite <- app_assoc. done.
Qed.

(** X4.  [AllocateOutput] returns for every shape, with the converted
    status of the framework's allocator.  It asks for output 0 with exactly
    the dimensions of the engine's shape, in order; it stores a tensor
    through the out-parameter exactly when the status it returns has the
    type OK, and the shape [TFTensor::shape] then reads off that tensor is
    the shape that was asked for. *)
Theorem AllocateOutput_shape (HAVE_GPU : bool)
    (allocate_output : Z -> TensorShape -> tf.Status)
    (context_ : OpKernelContext) (shape : TensorShape) :
  ∃ r,
    AllocateOutput HAVE_GPU allocate_output context_ shape = Some r ∧
    output_status_of r = ConvertStatus_to_common (allocate_output 0 shape) ∧
    (common.type (output_status_of r) = common.OK ->
     ∃ tensor_shape,
       output_tensor_of r = Some tensor_shape ∧
       TFTensor_shape tensor_shape = shape) ∧
    (common.type (output_status_of r) ≠ common.OK ->
     output_tensor_of r = None).
Proof.
  unfold AllocateOutput.
  pose proof (add_dims_from_spec shape [] []) as Hloop.
  change (add_dims_from (length shape) 0 shape [] = Some shape) in Hloop.
  rewrite Hloop. simpl.
  eexists. split; [reflexivity|]. simpl. split; [done|].
  pose proof (to_common_ok (allocate_output 0 shape)) as Hok.
  split.
  - intros Htype. apply Hok in Htype. rewrite Htype.
    exists shape. split; [done|].
    unfold TFTensor_shape. apply TFTensor_shape_from.
  - intros Htype. destruct (tf.ok (allocate_output 0 shape)) eqn:E; [|done].
    exfalso. apply Htype, Hok. done.
Qed.

(** ** The allocators *)

(** X5.  [AllocatePersistent] never lets the exception of the buffer's
    constructor out: it returns the converted status of the framework's
    allocator, asked for [size] elements of type int8 in device memory, and
    it stores a buffer through the out-parameter, holding the bytes the
    allocator left, exactly when that status has the type OK. *)
Theorem AllocatePersistent_status (HAVE_GPU : bool)
    (allocate_temp : tf.DataType -> Z -> bool -> tf.Status * list byte)
    (context_ : OpKernelContext) (size : Z) :
  (AllocatePersistent HAVE_GPU allocate_temp context_ size).1
    = ConvertStatus_to_common (allocate_temp tf.DT_INT8 size false).1 ∧
  (common.type (AllocatePersistent HAVE_GPU allocate_temp context_ size).1
     = common.OK ->
   (AllocatePersistent HAVE_GPU allocate_temp context_ size).2
     = Some (allocate_temp tf.DT_INT8 size false).2) ∧
  (common.type (AllocatePersistent HAVE_GPU allocate_temp context_ size).1
     ≠ common.OK ->
   (AllocatePersistent HAVE_GPU allocate_temp context_ size).2 = None).
Proof.
  unfold AllocatePersistent, TFPersistentBuffer_new.
  destruct (allocate_temp tf.DT_INT8 size false) as [status bytes].
  pose proof (to_common_ok status) as Hok.
  destruct (tf.ok status) eqn:E; simpl.
  - destruct status as [[] m]; try discriminate E.
    split; [done|]. split; [done|]. intros Hne. done.
  - split; [done|]. split; [|done].
    intros Htype. apply Hok in Htype. discriminate.
Qed.

(** X6.  [AllocateZeros] stores the tensor through the out-parameter
    exactly when the status it returns has the type OK, and it returns
    (rather than raises) exactly for the ten valid element types. *)
Theorem AllocateZeros_writes_on_success (HAVE_GPU : bool)
    (allocate_temp : tf.DataType -> Z -> bool -> tf.Status * list byte)
    (context_ : OpKernelContext) (num_elements : Z)
    (dtype : common.DataType) :
  match AllocateZeros HAVE_GPU allocate_temp context_ num_elements dtype with
  | Normal r =>
      GetTFDataType dtype ≠ None ∧
      (is_Some (tensor_of r) ↔ common.type (status_of r) = common.OK) ∧
      (∀ t, tensor_of r = Some t -> GetTFDataType dtype = Some t)
  | Raised what =>
      GetTFDataType dtype = None ∧ what = "Invalid data type."
  end.
Proof.
  unfold AllocateZeros.
  destruct (GetTFDataType dtype) as [t|]; [|done].
  destruct (allocate_temp t num_elements _) as [status bytes].
  cbn [tensor_of status_of].
  split; [done|]. rewrite to_common_ok. split.
  - destruct (tf.ok status); split; intros H; done.
  - intros t'. destruct (tf.ok status); [|done]. intros [= <-]. done.
Qed.

(** X7.  On a device other than the CPU, when the build has no GPU support
    or the kernel context has no device context, [AllocateZeros] returns
    the buffer with the very bytes the framework's allocator left in it:
    without GPU support nothing is written at all, and with GPU support and
    no device context the single write is the zeroing of the whole buffer,
    enqueued on the null stream and not waited for. *)
Theorem AllocateZeros_unsynchronised (HAVE_GPU : bool)
    (allocate_temp : tf.DataType -> Z -> bool -> tf.Status * list byte)
    (context_ : OpKernelContext) (num_elements : Z) (dtype : common.DataType)
    (tf_data_type : tf.DataType) :
  GetTFDataType dtype = Some tf_data_type ->
  GetDeviceID context_ ≠ CPU_DEVICE_ID ->
  HAVE_GPU = false ∨ op_device_context context_ = None ->
  ∃ r,
    AllocateZeros HAVE_GPU allocate_temp context_ num_elements dtype
      = Normal r ∧
    tensor_data (device_of r)
      = (allocate_temp tf_data_type num_elements false).2 ∧
    enqueued (device_of r) =
      if HAVE_GPU
      then [(None,
             length (allocate_temp tf_data_type num_elements false).2)]
      else [].
Proof.
  intros Hdt Hgpu Hnosync. unfold AllocateZeros. rewrite Hdt.
  rewrite decide_True by done.
  destruct (allocate_temp tf_data_type num_elements false)
    as [status bytes].
  eexists. split; [reflexivity|]. cbn [device_of].
  rewrite decide_True by done.
  destruct HAVE_GPU.
  - destruct Hnosync as [Hf|Hctx]; [discriminate|].
    rewrite Hctx. done.
  - done.
Qed.

Lemma AllocateZeros_unsynchronised_witness :
  ∃ r,
    AllocateZeros true dirty_allocate_temp gpu_without_device_context 3
      common.HOROVOD_INT8 = Normal r ∧
    tensor_data (device_of r) = (dirty_allocate_temp tf.DT_INT8 3 false).2 ∧
    enqueued (device_of r) =
      if true
      then [(None, length (dirty_allocate_temp tf.DT_INT8 3 false).2)]
      else [].
Proof.
  apply (AllocateZeros_unsynchronised true dirty_allocate_temp
           gpu_without_device_context 3 common.HOROVOD_INT8 tf.DT_INT8).
  - reflexivity.
  - discriminate.
  - right. reflexivity.
Defined.

(** ** The name a tensor is enqueued under *)

Lemma find_last_of_None (c : Ascii.ascii) (s : string) :
  find_last_of c s = None ↔ has_char c s = false.
Proof.
  induction s as [|a rest IH]; simpl; [done|].
  destruct (find_last_of c rest) as [pos|].
  - split; [done|]. intros H. case_decide; [done|].
    apply IH in H. done.
  - case_decide; [done|]. split; [|done]. intros _. apply IH. done.
Qed.

Lemma find_last_of_Some (c : Ascii.ascii) (s : string) :
  ∀ pos,
    find_last_of c s = Some pos ->
    (pos < String.length s)%nat ∧
    has_char c (string_drop (S pos) s) = false ∧
    ∃ scope,
      s = String.append scope (String c (string_drop (S pos) s)) ∧
      String.length scope = pos.
Proof.
  induction s as [|a rest IH]; intros pos; simpl; [done|].
  destruct (find_last_of c rest) as [p|] eqn:Hrest.
  - intros [= <-]. destruct (IH p eq_refl) as (Hlt & Hno & scope & Hs & Hlen).
    split; [lia|]. split; [done|].
    exists (String a scope). split; [|simpl; rewrite Hlen; done].
    change (String a rest
            = String a
                (String.append scope (String c (string_drop (S p) rest)))).
    f_equal. exact Hs.
  - case_decide as Hac; [|done]. intros [= <-]. subst a.
    split; [lia|]. split.
    + change (string_drop 0 rest) with rest.
      apply find_last_of_None. done.
    + exists EmptyString. done.
Qed.

(** The name after stripping: with [ignore_name_scope] set it is the part
    of the node's name after its last ['/'], computed without running into
    the out-of-range error of [substr]; it contains no ['/'], and stripping
    it again changes nothing.  Without the attribute the name is passed on
    as it is. *)
Theorem scoped_node_name_spec (name : string) :
  ∃ node_name,
    scoped_node_name true name = Some node_name ∧
    has_char slash node_name = false ∧
    (has_char slash name = false -> node_name = name) ∧
    (has_char slash name = true ->
     ∃ scope, name = String.append scope (String slash node_name)) ∧
    scoped_node_name true node_name = Some node_name ∧
    scoped_node_name false name = Some name.
Proof.
  unfold scoped_node_name.
  destruct (find_last_of slash name) as [pos|] eqn:Hfind.
  - destruct (find_last_of_Some slash name pos Hfind)
      as (Hlt & Hno & scope & Hs & Hlen).
    exists (string_drop (S pos) name).
    unfold substr. rewrite Nat.add_1_r.
    rewrite decide_True by lia.
    split; [done|]. split; [done|]. split; [|split; [|split; [|done]]].
    + intros Hnone. apply find_last_of_None in Hnone. congruence.
    + intros _. exists scope. done.
    + apply find_last_of_None in Hno. rewrite Hno. done.
  - exists name. pose proof Hfind as Hno. apply find_last_of_None in Hno.
    split; [done|]. split; [done|]. split; [done|].
    split; [congruence|]. rewrite Hfind. done.
Qed.

(** ** The kernels *)

Lemma scoped_node_name_some (ignore_name_scope_ : bool) (name : string) :
  ∃ node_name,
    scoped_node_name ignore_name_scope_ name = Some node_name ∧
    (ignore_name_scope_ = true -> has_char slash node_name = false).
Proof.
  unfold scoped_node_name. destruct ignore_name_scope_.
  - destruct (find_last_of slash name) as [pos|] eqn:Hfind.
    + destruct (find_last_of_Some slash name pos Hfind) as (Hlt & Hno & _).
      unfold substr. rewrite Nat.add_1_r, decide_True by lia. eauto.
    + apply find_last_of_None in Hfind. eauto.
  - eexists. split; [done|]. discriminate.
Qed.

(** X9.  [HorovodAllreduceOp::ComputeAsync] returns for every input.  It
    runs [done] itself exactly once when the engine is not initialised,
    when the output cannot be allocated or when the engine rejects the
    request, always as its last action and after recording the failure,
    and not at all when the request is accepted, so that with the one run
    of the callback it handed over [done] runs exactly once.  When the
    engine is not initialised nothing is allocated and nothing is enqueued;
    when the allocation fails nothing is enqueued.  What is enqueued is one
    request, for the device of the kernel context, with an output tensor,
    under a name that contains no ['/'] when [ignore_name_scope] is set. *)
Theorem HorovodAllreduceOp_ComputeAsync_done (HAVE_GPU : bool)
    (k : KernelCall) :
  ∃ trace,
    HorovodAllreduceOp_ComputeAsync HAVE_GPU k = Some trace ∧
    done_calls trace =
      (if tf.ok (ConvertStatus_to_tf (k_initialized k))
          && tf.ok (k_allocate_output k 0 (k_input_shape k))
          && tf.ok (ConvertStatus_to_tf (k_enqueue_result k))
       then 0 else 1)%nat ∧
    (done_calls trace = 1%nat ->
     ∃ before status,
       trace = before ++ [Kernel.CtxFailure status; Kernel.Done] ∧
       tf.ok status = false) ∧
    (∀ status,
       done_calls trace = 0%nat ->
       done_calls (trace ++ kernel_callback status) = 1%nat) ∧
    (tf.ok (ConvertStatus_to_tf (k_initialized k)) = false ->
     allocated_outputs trace = [] ∧ enqueued_requests trace = []) ∧
    (tf.ok (k_allocate_output k 0 (k_input_shape k)) = false ->
     enqueued_requests trace = []) ∧
    (length (enqueued_requests trace) ≤ 1)%nat ∧
    (∀ r, r ∈ enqueued_requests trace ->
          enq_collective r = Allreduce ∧
          enq_device r = GetDeviceID (k_context k) ∧
          enq_ready_event r = RecordReadyEvent HAVE_GPU (k_context k) ∧
          enq_has_output r = true ∧
          (k_ignore_name_scope k = true ->
           has_char slash (enq_name r) = false)).
Proof.
  unfold HorovodAllreduceOp_ComputeAsync, OP_REQUIRES_OK_ASYNC.
  destruct (scoped_node_name_some (k_ignore_name_scope k) (k_name k))
    as (node_name & Hname & Hslash).
  rewrite Hname. cbn [mbind option_bind].
  destruct (tf.ok (ConvertStatus_to_tf (k_initialized k))) eqn:Ei;
    destruct (tf.ok (k_allocate_output k 0 (k_input_shape k))) eqn:Ea;
    destruct (tf.ok (ConvertStatus_to_tf (k_enqueue_result k))) eqn:Ee;
    cbn [negb andb and_then app]; eexists; (split; [reflexivity|]);
    (split; [reflexivity|]);
    (split;
     [ intros Hd; try discriminate Hd;
       first
         [ exists [];
           eexists; split; [reflexivity|]; assumption
         | eexists [_]; eexists; split; [reflexivity|]; assumption
         | eexists [_; _]; eexists; split; [reflexivity|]; assumption ]
     | ]);
    (split; [intros status Hd; try discriminate Hd; reflexivity|]);
    (split; [intros Hf; try discriminate Hf; split; reflexivity|]);
    (split; [intros Hf; try discriminate Hf; reflexivity|]);
    (split; [simpl; lia|]);
    intros r Hr; simpl in Hr;
    try (apply elem_of_nil in Hr; contradiction);
    apply list_elem_of_singleton in Hr; subst r; simpl;
    repeat split; assumption.
Qed.

(** X10.  [HorovodBroadcastOp::ComputeAsync] returns for every input.  On
    the root rank it allocates nothing: once the engine is found
    initialised it forwards its input as output 0, as its first action, and
    then enqueues the request without an output tensor, so the answer of
    the output allocator cannot make it fail.  On any other rank it
    forwards nothing: it allocates output 0 with the shape of the input,
    enqueues the request with an output tensor, and enqueues nothing when
    the allocation fails.  On every rank [done] is run by the kernel itself
    exactly once when a step fails and not at all when the request is
    accepted, and nothing is forwarded, allocated or enqueued when the
    engine is not initialised. *)
Theorem HorovodBroadcastOp_ComputeAsync_output (HAVE_GPU : bool)
    (horovod_rank root_rank_ : Z) (k : KernelCall) :
  ∃ trace,
    HorovodBroadcastOp_ComputeAsync HAVE_GPU horovod_rank root_rank_ k
      = Some trace ∧
    done_calls trace =
      (if tf.ok (ConvertStatus_to_tf (k_initialized k))
          && (bool_decide (horovod_rank = root_rank_)
              || tf.ok (k_allocate_output k 0 (k_input_shape k)))
          && tf.ok (ConvertStatus_to_tf (k_enqueue_result k))
       then 0 else 1)%nat ∧
    (horovod_rank = root_rank_ ->
     allocated_outputs trace = [] ∧
     ∀ r, r ∈ enqueued_requests trace -> enq_has_output r = false) ∧
    (horovod_rank ≠ root_rank_ ->
     tf.ok (ConvertStatus_to_tf (k_initialized k)) = true ->
     allocated_outputs trace = [(0, k_input_shape k)] ∧
     (tf.ok (k_allocate_output k 0 (k_input_shape k)) = false ->
      enqueued_requests trace = []) ∧
     ∀ r, r ∈ enqueued_requests trace -> enq_has_output r = true) ∧
    (tf.ok (ConvertStatus_to_tf (k_initialized k)) = false ->
     allocated_outputs trace = [] ∧ enqueued_requests trace = []) ∧
    (∀ r, r ∈ enqueued_requests trace ->
          enq_collective r = Broadcast root_rank_ ∧
          enq_device r = GetDeviceID (k_context k)) ∧
    (horovod_rank = root_rank_ ->
     tf.ok (ConvertStatus_to_tf (k_initialized k)) = true ->
     forwarded_outputs trace = [0] ∧
     ∃ r rest,
       trace = Kernel.SetOutput 0 :: Kernel.Enqueue r :: rest ∧
       enq_has_output r = false) ∧
    (horovod_rank ≠ root_rank_ -> forwarded_outputs trace = []) ∧
    (tf.ok (ConvertStatus_to_tf (k_initialized k)) = false ->
     forwarded_outputs trace = []).
Proof.
  unfold HorovodBroadcastOp_ComputeAsync, OP_REQUIRES_OK_ASYNC.
  destruct (scoped_node_name_some (k_ignore_name_scope k) (k_name k))
    as (node_name & Hname & _).
  rewrite Hname. cbn [mbind option_bind].
  destruct (decide (horovod_rank = root_rank_)) as [Hroot|Hother];
    [ rewrite (bool_decide_eq_true_2 _ Hroot)
    | rewrite (bool_decide_eq_false_2 _ Hother) ];
    destruct (tf.ok (ConvertStatus_to_tf (k_initialized k))) eqn:Ei;
    destruct (tf.ok (k_allocate_output k 0 (k_input_shape k))) eqn:Ea;
    destruct (tf.ok (ConvertStatus_to_tf (k_enqueue_result k))) eqn:Ee;
    cbn [negb andb orb and_then app]; eexists;
    (split; [reflexivity|]);
    repeat
      match goal with
      | |- _ ∧ _ => split
      | |- ∀ _, _ => intro
      | H : true = false |- _ => discriminate H
      | H : false = true |- _ => discriminate H
      | H : ?x ≠ ?x |- _ => contradiction
      | H1 : ?x = ?y, H2 : ?x ≠ ?y |- _ => contradiction
      | H : _ ∈ enqueued_requests _ |- _ => simpl in H
      | H : _ ∈ [] |- _ => apply elem_of_nil in H; contradiction
      | H : _ ∈ [_] |- _ => apply list_elem_of_singleton in H; subst
      | |- ∃ _, _ => eexists
      end;
    reflexivity.
Qed.

(** X11.  The kernels of allgather, alltoall and join allocate no output.
    Each returns for every input, enqueues nothing when the engine is not
    initialised and otherwise exactly one request without an output tensor
    for the device of the kernel context, and runs [done] itself exactly
    once when the engine is not initialised or rejects the request and not
    at all otherwise.  The join kernel enqueues under the fixed join name,
    whatever the node is called. *)
Theorem gather_alltoall_join_ComputeAsync (HAVE_GPU : bool)
    (JOIN_TENSOR_NAME : string) (k : KernelCall) :
  ∀ kernel,
    kernel ∈ [(HorovodAllgatherOp_ComputeAsync HAVE_GPU, Allgather);
              (HorovodAlltoallOp_ComputeAsync HAVE_GPU, Alltoall);
              (HorovodJoinOp_ComputeAsync HAVE_GPU JOIN_TENSOR_NAME, Join)] ->
    ∃ trace,
      kernel.1 k = Some trace ∧
      allocated_outputs trace = [] ∧
      done_calls trace =
        (if tf.ok (ConvertStatus_to_tf (k_initialized k))
            && tf.ok (ConvertStatus_to_tf (k_enqueue_result k))
         then 0 else 1)%nat ∧
      length (enqueued_requests trace) =
        (if tf.ok (ConvertStatus_to_tf (k_initialized k)) then 1 else 0)%nat ∧
      (∀ r, r ∈ enqueued_requests trace ->
            enq_collective r = kernel.2 ∧
            enq_device r = GetDeviceID (k_context k) ∧
            enq_has_output r = false ∧
            (kernel.2 = Join -> enq_name r = JOIN_TENSOR_NAME)).
Proof.
  intros kernel Hin.
  destruct (scoped_node_name_some (k_ignore_name_scope k) (k_name k))
    as (node_name & Hname & _).
  rewrite !elem_of_cons, elem_of_nil in Hin.
  destruct Hin as [->|[->|[->|[]]]];
    cbn [fst snd];
    unfold HorovodAllgatherOp_ComputeAsync, HorovodAlltoallOp_ComputeAsync,
      HorovodJoinOp_ComputeAsync, OP_REQUIRES_OK_ASYNC;
    rewrite ?Hname; cbn [mbind option_bind];
    destruct (tf.ok (ConvertStatus_to_tf (k_initialized k))) eqn:Ei;
    destruct (tf.ok (ConvertStatus_to_tf (k_enqueue_result k))) eqn:Ee;
    cbn [negb andb and_then app]; eexists;
    (split; [reflexivity|]); (split; [reflexivity|]);
    (split; [reflexivity|]); (split; [reflexivity|]);
    intros r Hr; simpl in Hr;
    try (apply elem_of_nil in Hr; contradiction);
    apply list_elem_of_singleton in Hr; subst r;
    repeat split; try reflexivity; intros Hj; discriminate Hj.
Qed.

Lemma gather_alltoall_join_ComputeAsync_witness :
  ∃ trace,
    HorovodJoinOp_ComputeAsync true "join.noname"
      (mkKernelCall "tower/grad" true [2; 3] gpu_with_device_context
         common.Status_OK (fun _ _ => tf.Status_OK) common.Status_OK)
      = Some trace ∧
    allocated_outputs trace = [] ∧
    done_calls trace =
      (if tf.ok (ConvertStatus_to_tf common.Status_OK)
          && tf.ok (ConvertStatus_to_tf common.Status_OK)
       then 0 else 1)%nat ∧
    length (enqueued_requests trace) =
      (if tf.ok (ConvertStatus_to_tf common.Status_OK) then 1 else 0)%nat ∧
    (∀ r, r ∈ enqueued_requests trace ->
          enq_collective r = Join ∧
          enq_device r = GetDeviceID gpu_with_device_context ∧
          enq_has_output r = false ∧
          (Join = Join -> enq_name r = "join.noname")).
Proof.
  apply (gather_alltoall_join_ComputeAsync true "join.noname"
           (mkKernelCall "tower/grad" true [2; 3] gpu_with_device_context
              common.Status_OK (fun _ _ => tf.Status_OK) common.Status_OK)
           (HorovodJoinOp_ComputeAsync true "join.noname", Join)).
  repeat first [apply list_elem_of_here | apply list_elem_of_further].
Defined.

Lemma scoped_node_name_facts (k : KernelCall) :
  ∃ node_name,
    scoped_node_name (k_ignore_name_scope k) (k_name k) = Some node_name ∧
    (k_ignore_name_scope k = true ->
     has_char slash node_name = false ∧
     (has_char slash (k_name k) = false -> node_name = k_name k) ∧
     (has_char slash (k_name k) = true ->
      ∃ scope, k_name k = String.append scope (String slash node_name)) ∧
     scoped_node_name true node_name = Some node_name) ∧
    (k_ignore_name_scope k = false -> node_name = k_name k).
Proof.
  destruct (scoped_node_name_spec (k_name k))
    as (node_name & Hname & Hno & Hsame & Hscope & Hidem & Hplain).
  destruct (k_ignore_name_scope k).
  - exists node_name. split; [done|]. split; [done|]. discriminate.
  - exists (k_name k). split; [done|]. split; [discriminate|]. done.
Qed.

(** X8.  Each of the four tensor kernels (allreduce, allgather, broadcast,
    alltoall) returns and enqueues its request under the name that the
    stripping of the name scope computes, and it does enqueue one once the
    engine is found initialised and, where the kernel allocates an output,
    the allocation has succeeded.  With [ignore_name_scope] set that name
    is the part of the node's name after its last ['/']: it contains no
    ['/'], the node's name is a scope, a ['/'] and that name when it
    contains a ['/'] and is that name itself when it does not, the
    computation never runs into the out-of-range error of [substr], and
    stripping the name again changes nothing.  Without the attribute the
    request is enqueued under the node's name as it is. *)
Theorem kernels_enqueue_under_scoped_name (HAVE_GPU : bool)
    (horovod_rank root_rank_ : Z) (k : KernelCall) :
  enqueues_under_scoped_name k
    (tf.ok (ConvertStatus_to_tf (k_initialized k))
     && tf.ok (k_allocate_output k 0 (k_input_shape k)))
    (HorovodAllreduceOp_ComputeAsync HAVE_GPU k) ∧
  enqueues_under_scoped_name k
    (tf.ok (ConvertStatus_to_tf (k_initialized k)))
    (HorovodAllgatherOp_ComputeAsync HAVE_GPU k) ∧
  enqueues_under_scoped_name k
    (tf.ok (ConvertStatus_to_tf (k_initialized k))
     && (bool_decide (horovod_rank = root_rank_)
         || tf.ok (k_allocate_output k 0 (k_input_shape k))))
    (HorovodBroadcastOp_ComputeAsync HAVE_GPU horovod_rank root_rank_ k) ∧
  enqueues_under_scoped_name k
    (tf.ok (ConvertStatus_to_tf (k_initialized k)))
    (HorovodAlltoallOp_ComputeAsync HAVE_GPU k).
Proof.
  destruct (scoped_node_name_facts k)
    as (node_name & Hname & Hstrip & Hplain).
  unfold enqueues_under_scoped_name, HorovodAllreduceOp_ComputeAsync,
    HorovodAllgatherOp_ComputeAsync, HorovodBroadcastOp_ComputeAsync,
    HorovodAlltoallOp_ComputeAsync, OP_REQUIRES_OK_ASYNC.
  rewrite Hname. cbn [mbind option_bind].
  destruct (decide (horovod_rank = root_rank_)) as [Hroot|Hother];
    [ rewrite (bool_decide_eq_true_2 _ Hroot)
    | rewrite (bool_decide_eq_false_2 _ Hother) ];
    destruct (tf.ok (ConvertStatus_to_tf (k_initialized k))) eqn:Ei;
    destruct (tf.ok (k_allocate_output k 0 (k_input_shape k))) eqn:Ea;
    destruct (tf.ok (ConvertStatus_to_tf (k_enqueue_result k))) eqn:Ee;
    cbn [negb andb orb and_then app];
    repeat split;
    (exists_trace_and_name node_name);
    (split; [reflexivity|]); (split; [reflexivity|]);
    (split;
     [ intros r Hr; simpl in Hr;
       first
         [ apply elem_of_nil in Hr; contradiction
         | apply list_elem_of_singleton in Hr; subst r; reflexivity ]
     | ]);
    (split;
     [ intros Hreach;
       first
         [ discriminate Hreach
         | eexists; simpl; apply list_elem_of_here ]
     | ]);
    (split; assumption).
Qed.

(** * Further properties of the GPU execution context *)

(** What [InitGPUQueue] does to the members of the context and to the
    fields of the global state it does not rotate. *)
Lemma InitGPUQueue_op (entries : list TensorTableEntry)
    (first_entry : TensorTableEntry) (response : Response)
    (is_allreduce is_para : bool) (w w' : World) (slot : Z) :
  head entries = Some first_entry ->
  select_stream_index (global_state w) first_entry is_allreduce is_para
    = Some slot ->
  InitGPUQueue entries response is_allreduce is_para w = Some w' ->
  event_queue (op w') =
    (if timeline_initialized (global_state w)
     then [(QUEUE,
            mkEvent (stream_at w (current_nccl_stream (global_state w), slot)))]
     else []) ∧
  host_buffer (op w') = host_buffer (op w) ∧
  num_nccl_streams (global_state w') = num_nccl_streams (global_state w) ∧
  timeline_initialized (global_state w')
    = timeline_initialized (global_state w).
Proof.
  intros Hhead Hsel. unfold InitGPUQueue. rewrite Hhead. simpl.
  change (global_state (with_op (set_event_queue []) w))
    with (global_state w).
  rewrite Hsel. simpl.
  destruct is_allreduce; simpl;
    destruct (timeline_initialized (global_state w)) eqn:Ht; simpl;
    try case_decide; intros [= <-]; simpl; rewrite ?Ht; done.
Qed.

(** X12.  The four collective variants are enabled for a batch by its first
    entry alone; on an empty batch the answer is undefined.  For a batch
    whose first entry carries the device id [GetDeviceID] computed for its
    kernel context, each variant is enabled exactly when the context has
    GPU device information with an id other than the CPU's, whatever the
    devices of the other entries. *)
Theorem Enabled_for_kernel_device (context : OpKernelContext)
    (first_entry : TensorTableEntry) (rest : list TensorTableEntry) :
  device first_entry = GetDeviceID context ->
  ∀ Enabled,
    Enabled ∈ [GPUAllreduce_Enabled; GPUAllgather_Enabled;
               GPUBroadcast_Enabled; GPUAlltoall_Enabled] ->
    Enabled [] = None ∧
    ∃ enabled,
      Enabled (first_entry :: rest) = Some enabled ∧
      (enabled = true
       ↔ ∃ id, gpu_id context = Some id ∧ id ≠ CPU_DEVICE_ID).
Proof.
  intros Hdev Enabled Hin.
  rewrite !elem_of_cons, elem_of_nil in Hin.
  assert (Hiff : bool_decide (device first_entry ≠ CPU_DEVICE_ID) = true
                 ↔ ∃ id, gpu_id context = Some id ∧ id ≠ CPU_DEVICE_ID).
  { rewrite bool_decide_eq_true, Hdev. unfold GetDeviceID.
    destruct (gpu_id context) as [id|].
    - split; [eauto|]. intros (id' & [= <-] & Hne). done.
    - split; [done|]. intros (id' & Hid & _). done. }
  destruct Hin as [->|[->|[->|[->|[]]]]];
    (split; [reflexivity|]); eexists; (split; [reflexivity|]); exact Hiff.
Qed.

Lemma Enabled_for_kernel_device_witness :
  GPUAllgather_Enabled [] = None ∧
  ∃ enabled,
    GPUAllgather_Enabled
      (entry_on "grad" 0 (Some 1%positive)
         :: [entry_on "host" CPU_DEVICE_ID None])
      = Some enabled ∧
    (enabled = true
     ↔ ∃ id, gpu_id gpu_with_device_context = Some id ∧ id ≠ CPU_DEVICE_ID).
Proof.
  apply (Enabled_for_kernel_device gpu_with_device_context
           (entry_on "grad" 0 (Some 1%positive))
           [entry_on "host" CPU_DEVICE_ID None]).
  - reflexivity.
  - repeat first [apply list_elem_of_here | apply list_elem_of_further].
Defined.

(** X13.  The copies into and out of the fusion buffer are issued on the
    stream of the cell (current generation, first entry's device), for
    allreduce and allgather alike, and the two allreduce copies of an entry
    move the same number of bytes through the same buffer address.  After
    [InitGPUQueue] that cell is the one [stream] points at for every batch
    that is not a reduction; for a reduction [stream] points at the cell of
    the selected slot, which is the copies' cell only if the selected slot
    equals the first entry's device id. *)
Theorem copies_use_first_entry_stream (entries : list TensorTableEntry)
    (first_entry : TensorTableEntry) (rest : list TensorTableEntry)
    (response : Response) (is_allreduce is_para : bool) (w : World)
    (assigned : Z) (e_tensor e_output : TensorData)
    (buffer_data_at_offset entry_offset entry_size : Z) :
  entries = first_entry :: rest ->
  (is_allreduce = true ->
   vector_at (stream_assignment (global_state w))
     (current_gpu_stream (global_state w)) = Some assigned) ->
  ∃ w' copy_in copy_out gather_in gather_out,
    InitGPUQueue entries response is_allreduce is_para w = Some w' ∧
    GPUAllreduce_MemcpyEntryInFusionBuffer w' entries e_tensor
      buffer_data_at_offset = Some copy_in ∧
    GPUAllreduce_MemcpyEntryOutFusionBuffer w' entries buffer_data_at_offset
      e_tensor e_output = Some copy_out ∧
    GPUAllgather_MemcpyEntryInFusionBuffer w' entries e_tensor
      buffer_data_at_offset = Some gather_in ∧
    GPUAllgather_MemcpyEntryOutFusionBuffer w' entries buffer_data_at_offset
      e_output entry_offset entry_size = Some gather_out ∧
    (∀ c, c ∈ [copy_in; copy_out; gather_in; gather_out] ->
          copy_stream c =
            stream_at w'
              (current_nccl_stream (global_state w), device first_entry)) ∧
    dst copy_in = src copy_out ∧ count copy_in = count copy_out ∧
    dst gather_out = data e_output + entry_offset ∧
    count gather_out = entry_size ∧
    (is_allreduce = false ->
     stream (op w')
       = Some (current_nccl_stream (global_state w), device first_entry)) ∧
    (is_allreduce = true ->
     (stream (op w')
        = Some (current_nccl_stream (global_state w), device first_entry)
      ↔ (if is_para then PARA_STREAM_INDEX else assigned)
        = device first_entry)).
Proof.
  intros -> Ha.
  pose proof (select_stream_index_eq (global_state w) first_entry
                is_allreduce is_para assigned Ha) as Hsel.
  destruct (InitGPUQueue_eq (first_entry :: rest) first_entry response
              is_allreduce is_para w _ eq_refl Hsel)
    as (w' & Hq & Hs & _ & _ & _ & Hgen & _).
  { intros Htrue Hnil. specialize (Ha Htrue). rewrite Hnil in Ha.
    unfold vector_at in Ha. case_decide; done. }
  exists w'.
  unfold GPUAllreduce_MemcpyEntryInFusionBuffer,
    GPUAllreduce_MemcpyEntryOutFusionBuffer,
    GPUAllgather_MemcpyEntryInFusionBuffer,
    GPUAllgather_MemcpyEntryOutFusionBuffer, first_entry_cell.
  cbn [head mbind option_bind]. rewrite Hgen.
  do 4 eexists. split; [done|]. do 4 (split; [reflexivity|]).
  split.
  { intros c Hc. rewrite !elem_of_cons, elem_of_nil in Hc.
    destruct Hc as [->|[->|[->|[->|[]]]]]; reflexivity. }
  do 4 (split; [reflexivity|]). rewrite Hs. split.
  - intros ->. done.
  - intros ->. split.
    + intros [= H]. done.
    + intros H. rewrite H. done.
Qed.

Lemma copies_use_first_entry_stream_witness :
  ∃ w' copy_in copy_out gather_in gather_out,
    InitGPUQueue single_batch no_response true false fresh_world = Some w' ∧
    GPUAllreduce_MemcpyEntryInFusionBuffer w' single_batch
      (mkTensorData 4096 16) 8192 = Some copy_in ∧
    GPUAllreduce_MemcpyEntryOutFusionBuffer w' single_batch 8192
      (mkTensorData 4096 16) (mkTensorData 5120 16) = Some copy_out ∧
    GPUAllgather_MemcpyEntryInFusionBuffer w' single_batch
      (mkTensorData 4096 16) 8192 = Some gather_in ∧
    GPUAllgather_MemcpyEntryOutFusionBuffer w' single_batch 8192
      (mkTensorData 5120 16) 32 16 = Some gather_out ∧
    (∀ c, c ∈ [copy_in; copy_out; gather_in; gather_out] ->
          copy_stream c =
            stream_at w'
              (current_nccl_stream (global_state fresh_world),
               device (entry_on "grad" 3 (Some 1%positive)))) ∧
    dst copy_in = src copy_out ∧ count copy_in = count copy_out ∧
    dst gather_out = data (mkTensorData 5120 16) + 32 ∧
    count gather_out = 16 ∧
    (true = false ->
     stream (op w')
       = Some (current_nccl_stream (global_state fresh_world),
               device (entry_on "grad" 3 (Some 1%positive)))) ∧
    (true = true ->
     (stream (op w')
        = Some (current_nccl_stream (global_state fresh_world),
                device (entry_on "grad" 3 (Some 1%positive)))
      ↔ (if false then PARA_STREAM_INDEX else 5)
        = device (entry_on "grad" 3 (Some 1%positive)))).
Proof.
  apply (copies_use_first_entry_stream single_batch
           (entry_on "grad" 3 (Some 1%positive)) [] no_response true false
           fresh_world 5 (mkTensorData 4096 16) (mkTensorData 5120 16)
           8192 32 16).
  - reflexivity.
  - intros _. reflexivity.
Defined.

Lemma InitGPU_defined (entries : list TensorTableEntry)
    (first_entry : TensorTableEntry) (is_allreduce is_para : bool)
    (w : World) (slot : Z) :
  head entries = Some first_entry ->
  select_stream_index (global_state w) first_entry is_allreduce is_para
    = Some slot ->
  ∃ w',
    InitGPU entries is_allreduce is_para w = Some w' ∧
    finalizer_thread_pool (gpu_context w')
      = finalizer_thread_pool (gpu_context w) ∧
    calls w' =
      calls w
        ++ Call.SetDevice (device first_entry)
             :: match stream_at w (current_nccl_stream (global_state w), slot)
                with
                | Some _ => []
                | None =>
                    [Call.StreamCreate
                       (current_nccl_stream (global_state w), slot)
                       (next_stream (gpu_context w))]
                end.
Proof.
  intros Hhead Hsel. unfold InitGPU. rewrite Hhead. simpl.
  change (global_state (SetDevice (device first_entry) w))
    with (global_state w).
  rewrite Hsel. simpl.
  change (stream_at (SetDevice (device first_entry) w)
            (current_nccl_stream (global_state w), slot))
    with (stream_at w (current_nccl_stream (global_state w), slot)).
  destruct (stream_at w (current_nccl_stream (global_state w), slot));
    simpl; eexists; (split; [reflexivity|]); (split; [reflexivity|]); simpl.
  - done.
  - rewrite <- app_assoc. done.
Qed.

(** X14.  A batch driven through [InitGPU], [InitGPUQueue] and
    [FinalizeGPUQueue] with the same entries, on a context with a non-zero
    number of generations (and, for a reduction, the rotating pointer
    inside the table), ends with the in-progress status and one closure
    more in the pool.  Every marker of that closure's event queue, the
    unnamed final one and before it the queued one that exists exactly when
    the timeline is initialised, was recorded on a non-null stream handle:
    the one the cell of the selected slot held before the batch, or else
    the one [InitGPU] created.  Events left in the queue before the batch
    are not in it, and no handle the table held before is lost. *)
Theorem run_batch_marker_on_created_stream (entries : list TensorTableEntry)
    (first_entry : TensorTableEntry) (rest : list TensorTableEntry)
    (response : Response) (is_allreduce is_para free_host_buffer : bool)
    (error_check_callback : ErrorCheck) (w : World) (assigned : Z) :
  entries = first_entry :: rest ->
  (is_allreduce = true ->
   vector_at (stream_assignment (global_state w))
     (current_gpu_stream (global_state w)) = Some assigned) ->
  num_nccl_streams (global_state w) ≠ 0 ->
  ∃ w' task h,
    run_batch entries response is_allreduce is_para free_host_buffer
      error_check_callback w = Some (common.InProgress, w') ∧
    stream_at w'
      (current_nccl_stream (global_state w),
       if is_allreduce
       then if is_para then PARA_STREAM_INDEX else assigned
       else device first_entry) = Some h ∧
    h = default (next_stream (gpu_context w))
          (stream_at w
             (current_nccl_stream (global_state w),
              if is_allreduce
              then if is_para then PARA_STREAM_INDEX else assigned
              else device first_entry)) ∧
    finalizer_thread_pool (gpu_context w')
      = finalizer_thread_pool (gpu_context w) ++ [task] ∧
    t_entries task = entries ∧
    t_evt_queue task =
      (if timeline_initialized (global_state w)
       then [(QUEUE, mkEvent (Some h))] else [])
        ++ [(EmptyString, mkEvent (Some h))] ∧
    (∀ c h0, stream_at w c = Some h0 -> stream_at w' c = Some h0).
Proof.
  intros -> Ha Hnum.
  pose proof (select_stream_index_eq (global_state w) first_entry
                is_allreduce is_para assigned Ha) as Hsel.
  set (slot := if is_allreduce
               then if is_para then PARA_STREAM_INDEX else assigned
               else device first_entry) in *.
  set (cell := (current_nccl_stream (global_state w), slot)).
  destruct (InitGPU_defined (first_entry :: rest) first_entry is_allreduce
              is_para w slot eq_refl Hsel) as (w1 & H1 & Hpool1 & _).
  destruct (InitGPU_streams _ _ _ _ _ H1)
    as (e & slot' & Hhead & Hsel' & Hgs1 & Hop1 & Hall).
  injection Hhead as <-. rewrite Hsel in Hsel'. injection Hsel' as <-.
  fold cell in Hall.
  assert (Hne : is_allreduce = true ->
                stream_assignment (global_state w1) ≠ []).
  { rewrite Hgs1. intros Htrue Hnil. specialize (Ha Htrue).
    rewrite Hnil in Ha. unfold vector_at in Ha. case_decide; done. }
  rewrite <- Hgs1 in Hsel.
  destruct (InitGPUQueue_eq (first_entry :: rest) first_entry response
              is_allreduce is_para w1 slot eq_refl Hsel Hne)
    as (w2 & H2 & Hs2 & _ & _ & _ & Hgen2 & Hctx2).
  destruct (InitGPUQueue_op (first_entry :: rest) first_entry response
              is_allreduce is_para w1 w2 slot eq_refl Hsel H2)
    as (Hq2 & _ & Hnum2 & _).
  rewrite Hgs1 in Hs2, Hq2, Hnum2, Hgen2. fold cell in Hs2, Hq2.
  destruct (FinalizeGPUQueue_eq (first_entry :: rest) first_entry
              free_host_buffer error_check_callback w2 cell Hs2 eq_refl)
    as (w3 & H3 & _ & _ & _ & Hpool3 & Hstreams3 & _).
  { rewrite Hnum2. done. }
  assert (Hat2 : ∀ c, stream_at w2 c = stream_at w1 c).
  { intros c. unfold stream_at. rewrite Hctx2. done. }
  assert (Hat3 : ∀ c, stream_at w3 c = stream_at w1 c).
  { intros c. unfold stream_at. rewrite Hstreams3, Hctx2. done. }
  set (h := default (next_stream (gpu_context w)) (stream_at w cell)).
  assert (Hh : stream_at w1 cell = Some h).
  { rewrite Hall. unfold h. destruct (stream_at w cell); [done|].
    rewrite decide_True by done. done. }
  exists w3,
    (closure_of (first_entry :: rest) first_entry free_host_buffer
       error_check_callback cell w2), h.
  split.
  { unfold run_batch. rewrite H1. cbn [mbind option_bind].
    rewrite H2. cbn [mbind option_bind]. exact H3. }
  split; [rewrite Hat3; done|]. split; [done|]. split.
  { rewrite Hpool3, Hctx2, Hpool1. done. }
  split; [done|]. split.
  { unfold closure_of. cbn [t_evt_queue]. rewrite Hq2, Hat2, Hh. done. }
  intros c h0 Hc. rewrite Hat3, Hall, Hc. done.
Qed.

Lemma run_batch_marker_on_created_stream_witness :
  ∃ w' task h,
    run_batch fused_batch no_response true false true no_fault fresh_world
      = Some (common.InProgress, w') ∧
    stream_at w'
      (current_nccl_stream (global_state fresh_world),
       if true
       then if false then PARA_STREAM_INDEX else 5
       else device (entry_on "grad_a" 0 (Some 1%positive))) = Some h ∧
    h = default (next_stream (gpu_context fresh_world))
          (stream_at fresh_world
             (current_nccl_stream (global_state fresh_world),
              if true
              then if false then PARA_STREAM_INDEX else 5
              else device (entry_on "grad_a" 0 (Some 1%positive)))) ∧
    finalizer_thread_pool (gpu_context w')
      = finalizer_thread_pool (gpu_context fresh_world) ++ [task] ∧
    t_entries task = fused_batch ∧
    t_evt_queue task =
      (if timeline_initialized (global_state fresh_world)
       then [(QUEUE, mkEvent (Some h))] else [])
        ++ [(EmptyString, mkEvent (Some h))] ∧
    (∀ c h0, stream_at fresh_world c = Some h0 -> stream_at w' c = Some h0).
Proof.
  apply (run_batch_marker_on_created_stream fused_batch
           (entry_on "grad_a" 0 (Some 1%positive))
           [entry_on "grad_b" 0 (Some 2%positive);
            entry_on "grad_c" 0 (Some 3%positive)]
           no_response true false true no_fault fresh_world 5).
  - reflexivity.
  - intros _. reflexivity.
  - simpl. lia.
Defined.

Lemma reductions_cons (entries : list TensorTableEntry) (response : Response)
    (is_allreduce is_para : bool)
    (rest : list (list TensorTableEntry * Response * bool * bool)) :
  reductions ((entries, response, is_allreduce, is_para) :: rest)
  = if is_allreduce then S (reductions rest) else reductions rest.
Proof.
  unfold reductions. destruct is_allreduce.
  - rewrite filter_cons_True by done. done.
  - rewrite filter_cons_False by done. done.
Qed.

Lemma queue_batches_rotation_from
    (batches : list (list TensorTableEntry * Response * bool * bool)) :
  ∀ w : World,
    0 <= current_gpu_stream (global_state w)
      < Z.of_nat (length (stream_assignment (global_state w))) ->
    Z.of_nat (length (stream_assignment (global_state w))) <= INT_MAX ->
    Forall (fun b => b.1.1.1 ≠ []) batches ->
    ∃ cells w',
      queue_batches batches w = Some (cells, w') ∧
      length cells = length batches ∧
      current_gpu_stream (global_state w') =
        (current_gpu_stream (global_state w)
           + Z.of_nat (reductions batches))
          mod Z.of_nat (length (stream_assignment (global_state w))) ∧
      stream_assignment (global_state w')
        = stream_assignment (global_state w) ∧
      (Forall (fun b => b.1.2 = true ∧ b.2 = false) batches ->
       ∀ (k : nat) (x : Z),
         (k < length batches)%nat ->
         vector_at (stream_assignment (global_state w))
           ((current_gpu_stream (global_state w) + Z.of_nat k)
              mod Z.of_nat (length (stream_assignment (global_state w))))
           = Some x ->
         cells !! k
           = Some (Some (current_nccl_stream (global_state w), x))).
Proof.
  induction batches as [|[[[entries response] is_allreduce] is_para] rest IH];
    intros w Hptr Hmax Hall.
  - exists [], w. split; [done|]. split; [done|].
    change (Z.of_nat (reductions [])) with 0.
    rewrite Z.add_0_r, Z.mod_small by done.
    split; [done|]. split; [done|]. intros _ k x Hk. simpl in Hk. lia.
  - apply Forall_cons in Hall as [Hne Hall]. simpl in Hne.
    destruct entries as [|first_entry more]; [done|].
    destruct (vector_at_in_range _ _ Hptr) as [x0 Hx0].
    pose proof (select_stream_index_eq (global_state w) first_entry
                  is_allreduce is_para x0 (fun _ => Hx0)) as Hsel.
    destruct (InitGPUQueue_eq (first_entry :: more) first_entry response
                is_allreduce is_para w _ eq_refl Hsel)
      as (w1 & Hq & Hs & Hcur & _ & Htab & Hgen & _).
    { intros _ Hnil. rewrite Hnil in Hptr. simpl in Hptr. lia. }
    assert (Hcur1 : current_gpu_stream (global_state w1) =
                    if is_allreduce
                    then (current_gpu_stream (global_state w) + 1)
                           mod Z.of_nat
                                 (length (stream_assignment (global_state w)))
                    else current_gpu_stream (global_state w)).
    { rewrite Hcur. destruct is_allreduce; [|done].
      apply next_gpu_stream_mod; done. }
    destruct (IH w1) as (cells & w' & Hrun & Hlen & Hptr' & Htab' & Hslots).
    { rewrite Htab, Hcur1. destruct is_allreduce; [|done].
      apply Z.mod_pos_bound. lia. }
    { rewrite Htab. done. }
    { done. }
    exists (stream (op w1) :: cells), w'.
    split.
    { cbn [queue_batches]. rewrite Hq. cbn [mbind option_bind].
      rewrite Hrun. done. }
    split; [simpl; rewrite Hlen; done|].
    split.
    { rewrite Hptr', Htab, Hcur1, reductions_cons.
      destruct is_allreduce; [|done].
      rewrite Zplus_mod_idemp_l. f_equal. lia. }
    split; [rewrite Htab', Htab; done|].
    intros Hred k x Hk Hx.
    apply Forall_cons in Hred as [[Ha Hp] Hred]. simpl in Ha, Hp.
    subst is_allreduce is_para.
    destruct k as [|k'].
    + simpl. rewrite Hs. do 3 f_equal.
      rewrite Z.add_0_r, Z.mod_small in Hx by done. congruence.
    + simpl. rewrite <- Hgen. apply Hslots; [done|simpl in Hk; lia|].
      rewrite Htab, Hcur1, Zplus_mod_idemp_l.
      rewrite <- Hx. f_equal. f_equal. lia.
Qed.

(** X15.  Over any sequence of non-empty batches queued one after the other
    with [InitGPUQueue], starting with the rotating pointer inside an
    assignment table of at most INT_MAX elements: every call returns, the
    table is not changed, and the pointer ends at (pointer + number of
    reduction batches) modulo the table's size, batches that are not
    reductions leaving it alone.  When all batches are reductions without
    [is_para], the k-th of them gets the table's element at (pointer + k)
    modulo the size as its slot, in the generation that is current, so the
    slots run through the table in order and wrap at its end. *)
Theorem queue_batches_rotation
    (batches : list (list TensorTableEntry * Response * bool * bool))
    (w : World) :
  0 <= current_gpu_stream (global_state w)
    < Z.of_nat (length (stream_assignment (global_state w))) ->
  Z.of_nat (length (stream_assignment (global_state w))) <= INT_MAX ->
  Forall (fun b => b.1.1.1 ≠ []) batches ->
  ∃ cells w',
    queue_batches batches w = Some (cells, w') ∧
    length cells = length batches ∧
    current_gpu_stream (global_state w') =
      (current_gpu_stream (global_state w) + Z.of_nat (reductions batches))
        mod Z.of_nat (length (stream_assignment (global_state w))) ∧
    0 <= current_gpu_stream (global_state w')
      < Z.of_nat (length (stream_assignment (global_state w'))) ∧
    stream_assignment (global_state w')
      = stream_assignment (global_state w) ∧
    (Forall (fun b => b.1.2 = true ∧ b.2 = false) batches ->
     ∀ (k : nat) (x : Z),
       (k < length batches)%nat ->
       vector_at (stream_assignment (global_state w))
         ((current_gpu_stream (global_state w) + Z.of_nat k)
            mod Z.of_nat (length (stream_assignment (global_state w))))
         = Some x ->
       cells !! k = Some (Some (current_nccl_stream (global_state w), x))).
Proof.
  intros Hptr Hmax Hall.
  destruct (queue_batches_rotation_from batches w Hptr Hmax Hall)
    as (cells & w' & Hrun & Hlen & Hptr' & Htab & Hslots).
  exists cells, w'. split; [done|]. split; [done|]. split; [done|].
  split; [|split; done].
  rewrite Htab, Hptr'. apply Z.mod_pos_bound. lia.
Qed.

Lemma queue_batches_rotation_witness :
  ∃ cells w',
    queue_batches
      [(single_batch, no_response, true, false);
       (fused_batch, no_response, true, false);
       (join_batch, no_response, true, false);
       (single_batch, no_response, true, false)] fresh_world
      = Some (cells, w') ∧
    length cells = 4%nat ∧
    current_gpu_stream (global_state w') =
      (current_gpu_stream (global_state fresh_world)
         + Z.of_nat
             (reductions
                [(single_batch, no_response, true, false);
                 (fused_batch, no_response, true, false);
                 (join_batch, no_response, true, false);
                 (single_batch, no_response, true, false)]))
        mod Z.of_nat (length (stream_assignment (global_state fresh_world))) ∧
    0 <= current_gpu_stream (global_state w')
      < Z.of_nat (length (stream_assignment (global_state w'))) ∧
    stream_assignment (global_state w')
      = stream_assignment (global_state fresh_world) ∧
    (Forall (fun b => b.1.2 = true ∧ b.2 = false)
       [(single_batch, no_response, true, false);
        (fused_batch, no_response, true, false);
        (join_batch, no_response, true, false);
        (single_batch, no_response, true, false)] ->
     ∀ (k : nat) (x : Z),
       (k < 4)%nat ->
       vector_at (stream_assignment (global_state fresh_world))
         ((current_gpu_stream (global_state fresh_world) + Z.of_nat k)
            mod Z.of_nat
                  (length (stream_assignment (global_state fresh_world))))
         = Some x ->
       cells !! k
         = Some (Some (current_nccl_stream (global_state fresh_world), x))).
Proof.
  apply (queue_batches_rotation
           [(single_batch, no_response, true, false);
            (fused_batch, no_response, true, false);
            (join_batch, no_response, true, false);
            (single_batch, no_response, true, false)] fresh_world).
  - simpl. lia.
  - simpl. unfold INT_MAX. lia.
  - repeat constructor; discriminate.
Defined.

(** X16.  [FinalizeGPUQueue] reads the generation for the fusion buffer
    before it advances it, and resets neither the event queue nor the host
    buffer pointer.  Two batches finalized one after the other on one
    context, with the generation index in range, therefore give two
    closures of which the first holds the buffer of the generation current
    at the start and the second the buffer of the next generation, a
    different buffer whenever there are at least two generations; both
    closures hold the same host buffer pointer, and the event queue of the
    second is the event queue of the first followed by one more unnamed
    marker. *)
Theorem consecutive_batches_fusion_buffers
    (first1 first2 : TensorTableEntry) (rest1 rest2 : list TensorTableEntry)
    (free1 free2 : bool) (check1 check2 : ErrorCheck) (w : World)
    (cell : stream_cell) :
  stream (op w) = Some cell ->
  0 <= current_nccl_stream (global_state w)
    < num_nccl_streams (global_state w) ->
  num_nccl_streams (global_state w) <= INT_MAX ->
  ∃ w1 w2 t1 t2,
    FinalizeGPUQueue (first1 :: rest1) free1 check1 w
      = Some (common.InProgress, w1) ∧
    FinalizeGPUQueue (first2 :: rest2) free2 check2 w1
      = Some (common.InProgress, w2) ∧
    finalizer_thread_pool (gpu_context w2)
      = finalizer_thread_pool (gpu_context w) ++ [t1; t2] ∧
    t_fusion_buffer t1 =
      (device first1, framework first1,
       current_nccl_stream (global_state w)) ∧
    t_fusion_buffer t2 =
      (device first2, framework first2,
       (current_nccl_stream (global_state w) + 1)
         mod num_nccl_streams (global_state w)) ∧
    (2 <= num_nccl_streams (global_state w) ->
     t_fusion_buffer t1 ≠ t_fusion_buffer t2) ∧
    t_cpu_buffer t1 = host_buffer (op w) ∧
    t_cpu_buffer t2 = host_buffer (op w) ∧
    t_evt_queue t2
      = t_evt_queue t1 ++ [(EmptyString, mkEvent (stream_at w cell))].
Proof.
  intros Hs Hcur Hmax.
  destruct (FinalizeGPUQueue_eq (first1 :: rest1) first1 free1 check1 w cell
              Hs eq_refl ltac:(lia))
    as (w1 & H1 & Hq1 & Hs1 & Hb1 & Hpool1 & Hst1 & _ & Hgen1 & Hnum1 & _).
  rewrite next_nccl_stream_mod in Hgen1 by done.
  rewrite Hs in Hs1.
  destruct (FinalizeGPUQueue_eq (first2 :: rest2) first2 free2 check2 w1 cell
              Hs1 eq_refl ltac:(lia))
    as (w2 & H2 & _ & _ & _ & Hpool2 & _).
  exists w1, w2,
    (closure_of (first1 :: rest1) first1 free1 check1 cell w),
    (closure_of (first2 :: rest2) first2 free2 check2 cell w1).
  split; [done|]. split; [done|]. split.
  { rewrite Hpool2, Hpool1, <- app_assoc. done. }
  split; [done|]. split.
  { unfold closure_of, GetBuffer. cbn [t_fusion_buffer]. rewrite Hgen1.
    done. }
  split.
  { intros Htwo. unfold closure_of, GetBuffer. cbn [t_fusion_buffer].
    rewrite Hgen1. intros [= _ _ Heq].
    destruct (decide (current_nccl_stream (global_state w) + 1
                      = num_nccl_streams (global_state w))) as [Hlast|Hmid].
    - rewrite Hlast, Z.mod_same in Heq by lia. lia.
    - rewrite Z.mod_small in Heq by lia. lia. }
  split; [done|]. split.
  { unfold closure_of. cbn [t_cpu_buffer]. done. }
  unfold closure_of. cbn [t_evt_queue]. rewrite Hq1.
  unfold stream_at. rewrite Hst1. done.
Qed.

Lemma consecutive_batches_fusion_buffers_witness :
  ∃ w1 w2 t1 t2,
    FinalizeGPUQueue
      (entry_on "grad_a" 0 (Some 1%positive)
         :: [entry_on "grad_b" 0 (Some 2%positive)])
      true no_fault queued_world = Some (common.InProgress, w1) ∧
    FinalizeGPUQueue (entry_on "grad" 3 (Some 1%positive) :: [])
      true no_fault w1 = Some (common.InProgress, w2) ∧
    finalizer_thread_pool (gpu_context w2)
      = finalizer_thread_pool (gpu_context queued_world) ++ [t1; t2] ∧
    t_fusion_buffer t1 =
      (device (entry_on "grad_a" 0 (Some 1%positive)),
       framework (entry_on "grad_a" 0 (Some 1%positive)),
       current_nccl_stream (global_state queued_world)) ∧
    t_fusion_buffer t2 =
      (device (entry_on "grad" 3 (Some 1%positive)),
       framework (entry_on "grad" 3 (Some 1%positive)),
       (current_nccl_stream (global_state queued_world) + 1)
         mod num_nccl_streams (global_state queued_world)) ∧
    (2 <= num_nccl_streams (global_state queued_world) ->
     t_fusion_buffer t1 ≠ t_fusion_buffer t2) ∧
    t_cpu_buffer t1 = host_buffer (op queued_world) ∧
    t_cpu_buffer t2 = host_buffer (op queued_world) ∧
    t_evt_queue t2
      = t_evt_queue t1
          ++ [(EmptyString, mkEvent (stream_at queued_world (0, 3)))].
Proof.
  apply (consecutive_batches_fusion_buffers
           (entry_on "grad_a" 0 (Some 1%positive))
           (entry_on "grad" 3 (Some 1%positive))
           [entry_on "grad_b" 0 (Some 2%positive)] [] true true
           no_fault no_fault queued_world (0, 3)).
  - reflexivity.
  - simpl. lia.
  - simpl. unfold INT_MAX. lia.
Defined.

(** X17.  The stream lookup of [InitGPU] is idempotent.  On a non-empty
    batch (with the rotating pointer inside the table for a reduction) the
    call returns, sets the device, and creates a stream only if the cell of
    the selected slot held none; a second call with the same arguments
    returns too, leaves the whole GPU context as the first call left it and
    only sets the device again.  No handle the table held before the first
    call is replaced or removed, and neither call touches the global state
    or the members of the execution context. *)
Theorem InitGPU_lookup_idempotent (entries : list TensorTableEntry)
    (first_entry : TensorTableEntry) (rest : list TensorTableEntry)
    (is_allreduce is_para : bool) (w : World) (assigned : Z) :
  entries = first_entry :: rest ->
  (is_allreduce = true ->
   vector_at (stream_assignment (global_state w))
     (current_gpu_stream (global_state w)) = Some assigned) ->
  ∃ w1 w2,
    InitGPU entries is_allreduce is_para w = Some w1 ∧
    InitGPU entries is_allreduce is_para w1 = Some w2 ∧
    gpu_context w2 = gpu_context w1 ∧
    calls w2 = calls w1 ++ [Call.SetDevice (device first_entry)] ∧
    (∀ c h, stream_at w c = Some h -> stream_at w1 c = Some h) ∧
    global_state w2 = global_state w ∧ op w2 = op w.
Proof.
  intros -> Ha.
  pose proof (select_stream_index_eq (global_state w) first_entry
                is_allreduce is_para assigned Ha) as Hsel.
  destruct (InitGPU_defined (first_entry :: rest) first_entry is_allreduce
              is_para w _ eq_refl Hsel) as (w1 & H1 & _ & _).
  destruct (InitGPU_streams _ _ _ _ _ H1)
    as (e & slot & Hhead & Hsel1 & Hgs1 & Hop1 & Hall).
  injection Hhead as <-. rewrite Hsel in Hsel1. injection Hsel1 as <-.
  rewrite <- Hgs1 in Hsel.
  destruct (InitGPU_defined (first_entry :: rest) first_entry is_allreduce
              is_para w1 _ eq_refl Hsel) as (w2 & H2 & _ & Hcalls2).
  destruct (InitGPU_twice _ _ _ _ _ H1) as (w2' & H2' & Hctx).
  rewrite H2 in H2'. injection H2' as <-.
  destruct (InitGPU_streams _ _ _ _ _ H2)
    as (_ & _ & _ & _ & Hgs2 & Hop2 & _).
  exists w1, w2. split; [done|]. split; [done|]. split; [done|]. split.
  { rewrite Hcalls2, Hgs1, Hall.
    destruct (stream_at w _); [done|]. rewrite decide_True by done. done. }
  split.
  { intros c h Hc. rewrite Hall, Hc. done. }
  split; congruence.
Qed.

Lemma InitGPU_lookup_idempotent_witness :
  ∃ w1 w2,
    InitGPU single_batch true true fresh_world = Some w1 ∧
    InitGPU single_batch true true w1 = Some w2 ∧
    gpu_context w2 = gpu_context w1 ∧
    calls w2
      = calls w1
          ++ [Call.SetDevice (device (entry_on "grad" 3 (Some 1%positive)))] ∧
    (∀ c h, stream_at fresh_world c = Some h -> stream_at w1 c = Some h) ∧
    global_state w2 = global_state fresh_world ∧ op w2 = op fresh_world.
Proof.
  apply (InitGPU_lookup_idempotent single_batch
           (entry_on "grad" 3 (Some 1%positive)) [] true true fresh_world 5).
  - reflexivity.
  - intros _. reflexivity.
Defined.

(** X18.  From hand-off to notification: the closure [FinalizeGPUQueue]
    puts in the pool for a non-empty batch, once run by a worker whose
    event wait returns, invokes the callback of every entry of that batch
    that has one, once each in batch order with the OK status, and frees
    the host buffer the execution context held at the hand-off exactly when
    [free_host_buffer] was passed and that pointer is not null.  If the
    wait is left by an exception the closure invokes no callback and frees
    nothing. *)
Theorem finalize_then_run
    (W : event_queue_t -> list TensorTableEntry -> ErrorCheck -> completion)
    (entries : list TensorTableEntry) (free_host_buffer : bool)
    (error_check_callback : ErrorCheck) (w : World) (cell : stream_cell) :
  entries ≠ [] ->
  stream (op w) = Some cell ->
  num_nccl_streams (global_state w) ≠ 0 ->
  ∃ w' task,
    FinalizeGPUQueue entries free_host_buffer error_check_callback w
      = Some (common.InProgress, w') ∧
    last (finalizer_thread_pool (gpu_context w')) = Some task ∧
    ((finalizer_task W task).2 = Returns ->
     delivered (finalizer_task W task).1 = ok_deliveries entries ∧
     freed (finalizer_task W task).1
       = buffer_to_free free_host_buffer (host_buffer (op w))) ∧
    (∀ what, (finalizer_task W task).2 = Throws what ->
             delivered (finalizer_task W task).1 = [] ∧
             freed (finalizer_task W task).1 = []).
Proof.
  intros Hne Hs Hnum.
  destruct entries as [|first_entry rest]; [done|].
  destruct (FinalizeGPUQueue_eq (first_entry :: rest) first_entry
              free_host_buffer error_check_callback w cell Hs eq_refl Hnum)
    as (w' & Hf & _ & _ & _ & Hpool & _).
  exists w',
    (closure_of (first_entry :: rest) first_entry free_host_buffer
       error_check_callback cell w).
  split; [done|]. split; [rewrite Hpool; apply last_snoc|].
  destruct (finalizer_task_cases W
              (closure_of (first_entry :: rest) first_entry free_host_buffer
                 error_check_callback cell w))
    as [(_ & Hend & Hd & Hfr)|(what & _ & Hend & Hd & Hfr)].
  - split; [done|]. intros what. rewrite Hend. done.
  - split; [rewrite Hend; done|]. done.
Qed.

Lemma finalize_then_run_witness :
  ∃ w' task,
    FinalizeGPUQueue join_batch true no_fault queued_world
      = Some (common.InProgress, w') ∧
    last (finalizer_thread_pool (gpu_context w')) = Some task ∧
    ((finalizer_task (WaitForEvents_model (fun _ => true)) task).2 = Returns ->
     delivered (finalizer_task (WaitForEvents_model (fun _ => true)) task).1
       = ok_deliveries join_batch ∧
     freed (finalizer_task (WaitForEvents_model (fun _ => true)) task).1
       = buffer_to_free true (host_buffer (op queued_world))) ∧
    (∀ what,
       (finalizer_task (WaitForEvents_model (fun _ => true)) task).2
         = Throws what ->
       delivered (finalizer_task (WaitForEvents_model (fun _ => true)) task).1
         = [] ∧
       freed (finalizer_task (WaitForEvents_model (fun _ => true)) task).1
         = []).
Proof.
  apply (finalize_then_run (WaitForEvents_model (fun _ => true)) join_batch
           true no_fault queued_world (0, 3)).
  - discriminate.
  - reflexivity.
  - simpl. lia.
Defined.

(** X19.  [InitGPUQueue] never creates a stream: on a non-empty batch (with
    the rotating pointer inside the table for a reduction) it returns with
    the GPU context unchanged and [stream] pointing at the cell of the
    selected slot, whatever that cell holds.  The final marker of a
    [FinalizeGPUQueue] that follows is recorded on the handle the cell held
    before [InitGPUQueue], which is the null handle when no stream had been
    created for that cell. *)
Theorem InitGPUQueue_creates_no_stream (entries : list TensorTableEntry)
    (first_entry : TensorTableEntry) (rest : list TensorTableEntry)
    (response : Response) (is_allreduce is_para free_host_buffer : bool)
    (error_check_callback : ErrorCheck) (w : World) (assigned : Z) :
  entries = first_entry :: rest ->
  (is_allreduce = true ->
   vector_at (stream_assignment (global_state w))
     (current_gpu_stream (global_state w)) = Some assigned) ->
  num_nccl_streams (global_state w) ≠ 0 ->
  ∃ w1 w2 task,
    InitGPUQueue entries response is_allreduce is_para w = Some w1 ∧
    gpu_context w1 = gpu_context w ∧
    stream (op w1) =
      Some (current_nccl_stream (global_state w),
            if is_allreduce
            then if is_para then PARA_STREAM_INDEX else assigned
            else device first_entry) ∧
    FinalizeGPUQueue entries free_host_buffer error_check_callback w1
      = Some (common.InProgress, w2) ∧
    last (finalizer_thread_pool (gpu_context w2)) = Some task ∧
    last (t_evt_queue task) =
      Some (EmptyString,
            mkEvent
              (stream_at w
                 (current_nccl_stream (global_state w),
                  if is_allreduce
                  then if is_para then PARA_STREAM_INDEX else assigned
                  else device first_entry))).
Proof.
  intros -> Ha Hnum.
  pose proof (select_stream_index_eq (global_state w) first_entry
                is_allreduce is_para assigned Ha) as Hsel.
  destruct (InitGPUQueue_eq (first_entry :: rest) first_entry response
              is_allreduce is_para w _ eq_refl Hsel)
    as (w1 & H1 & Hs1 & _ & _ & _ & _ & Hctx1).
  { intros Htrue Hnil. specialize (Ha Htrue). rewrite Hnil in Ha.
    unfold vector_at in Ha. case_decide; done. }
  destruct (InitGPUQueue_op (first_entry :: rest) first_entry response
              is_allreduce is_para w w1 _ eq_refl Hsel H1)
    as (_ & _ & Hnum1 & _).
  destruct (FinalizeGPUQueue_eq (first_entry :: rest) first_entry
              free_host_buffer error_check_callback w1 _ Hs1 eq_refl)
    as (w2 & H2 & _ & _ & _ & Hpool2 & _).
  { rewrite Hnum1. done. }
  do 3 eexists. split; [done|]. split; [done|]. split; [done|].
  split; [done|]. split; [rewrite Hpool2; apply last_snoc|].
  unfold closure_of. cbn [t_evt_queue]. rewrite last_snoc.
  unfold stream_at. rewrite Hctx1. done.
Qed.

Lemma InitGPUQueue_creates_no_stream_witness :
  ∃ w1 w2 task,
    InitGPUQueue single_batch no_response false false fresh_world = Some w1 ∧
    gpu_context w1 = gpu_context fresh_world ∧
    stream (op w1) =
      Some (current_nccl_stream (global_state fresh_world),
            if false
            then if false then PARA_STREAM_INDEX else 5
            else device (entry_on "grad" 3 (Some 1%positive))) ∧
    FinalizeGPUQueue single_batch true no_fault w1
      = Some (common.InProgress, w2) ∧
    last (finalizer_thread_pool (gpu_context w2)) = Some task ∧
    last (t_evt_queue task) =
      Some (EmptyString,
            mkEvent
              (stream_at fresh_world
                 (current_nccl_stream (global_state fresh_world),
                  if false
                  then if false then PARA_STREAM_INDEX else 5
                  else device (entry_on "grad" 3 (Some 1%positive))))).
Proof.
  apply (InitGPUQueue_creates_no_stream single_batch
           (entry_on "grad" 3 (Some 1%positive)) [] no_response false false
           true no_fault fresh_world 5).
  - reflexivity.
  - intros Hf. discriminate Hf.
  - simpl. lia.
Defined.
